(** * render-project: the brand-kit proxy and the ads generator

    A shallow embedding of [src/brandfetch-proxy.js], which holds two Express
    services:

    - the brand proxy, [GET /brandkit], which relays the answer of the
      upstream brand API;
    - the ads generator, [GET /generate-ads], which asks the brand proxy for
      a brand kit and fills ten fixed templates with the brand's name and
      primary colour.

    JavaScript values are modelled as data, thrown exceptions by a result
    type, and the one effect of the handlers (the outbound [fetch], and the
    [console.error] of the generator) by a small tree of requests that is
    run against the network's answers.  Converting a query value to a string
    can throw; a handler ends by sending a response or, where the throw is
    outside its [try], by throwing. *)

From Stdlib Require Import String Ascii List ZArith Lia Bool.
From Stdlib Require Import DecimalString.
From Stdlib Require DecimalPos.
Import ListNotations.
Local Open Scope string_scope.
Local Open Scope Z_scope.
Local Set Warnings "-register-all".

(** ** Exceptions *)

(** The constructors that the code and the runtime throw.  Only [message] is
    read by the handlers ([error.message], [err.message]). *)
Inductive error_name : Type :=
| Error | TypeError | RangeError | SyntaxError | FetchError.

Record exn : Type := mkExn { kind : error_name; message : string }.

Inductive result (A : Type) : Type :=
| Ok (a : A)
| Throw (e : exn).
Arguments Ok {A} a.
Arguments Throw {A} e.

Definition bind {A B : Type} (r : result A) (k : A -> result B) : result B :=
  match r with
  | Ok a => k a
  | Throw e => Throw e
  end.

Notation "x <- r ;; k" := (bind r (fun x => k))
  (at level 61, r at next level, right associativity).

(** ** JavaScript values *)

(** JSON numbers are IEEE doubles.  The program never computes with the
    numbers of a brand kit: it only tests them for truthiness and prints them
    in a template literal, so they are kept abstract behind these two
    observations. *)
Class JsNumber (number : Type) : Type := {
  number_truthy : number -> bool;      (* neither 0, -0 nor NaN *)
  number_toString : number -> string   (* Number::toString, radix 10 *)
}.

(** The decimal notation of an integer, which is how JavaScript prints a
    number that is an integer below 10^21 in absolute value: an HTTP status
    code, an integer of a brand kit. *)
Definition string_of_Z (z : Z) : string :=
  NilZero.string_of_int (Z.to_int z).

(** The integers up to 2^53 in absolute value: JSON carries them to a double
    without loss, and they print in decimal. *)
Record int53 : Type := mkInt53 {
  int53_value : Z;
  int53_range : (Z.abs int53_value <=? 2 ^ 53) = true
}.

#[export] Instance int53_JsNumber : JsNumber int53 := {
  number_truthy x := negb (int53_value x =? 0);
  number_toString x := string_of_Z (int53_value x)
}.

Section Values.

Context {number : Type} `{JsNumber number}.

(** What [JSON.parse] returns, plus [undefined] for the result of reading an
    absent property.  An object is its list of own properties; a key is
    looked up from the left. *)
Inductive value : Type :=
| VUndefined
| VNull
| VBool (b : bool)
| VNum (x : number)
| VStr (s : string)
| VArr (elems : list value)
| VObj (props : list (string * value)).

(** ToBoolean. *)
Definition truthy (v : value) : bool :=
  match v with
  | VUndefined | VNull => false
  | VBool b => b
  | VNum x => number_truthy x
  | VStr s => negb (String.eqb s "")
  | VArr _ | VObj _ => true
  end.

Fixpoint lookup {A : Type} (key : string) (props : list (string * A)) : option A :=
  match props with
  | [] => None
  | (k, v) :: rest => if String.eqb k key then Some v else lookup key rest
  end.

Definition has_key {A : Type} (key : string) (props : list (string * A)) : bool :=
  match lookup key props with Some _ => true | None => false end.

(** [v.key] for the keys this program reads: [name], [domain], [colors] and
    [hex].  None of them is defined on a built-in prototype, so on a
    primitive or an array the read gives [undefined]; on [null] and
    [undefined] it throws (the message is V8's). *)
Definition get (v : value) (key : string) : result value :=
  match v with
  | VUndefined =>
      Throw (mkExn TypeError
        ("Cannot read properties of undefined (reading '" ++ key ++ "')"))
  | VNull =>
      Throw (mkExn TypeError
        ("Cannot read properties of null (reading '" ++ key ++ "')"))
  | VObj props =>
      match lookup key props with
      | Some x => Ok x
      | None => Ok VUndefined
      end
  | VBool _ | VNum _ | VStr _ | VArr _ => Ok VUndefined
  end.

(** [Array.isArray(v) && v.length > 0]. *)
Definition is_nonempty_array (v : value) : bool :=
  match v with
  | VArr (_ :: _) => true
  | _ => false
  end.

(** ToString, as a template literal applies it.  An array is joined with
    commas, [null] and [undefined] elements printing as nothing.  A plain
    object prints through [Object.prototype.toString], unless the parsed
    JSON gave it an own [toString] property: that property is not callable,
    and neither is an own [valueOf]; the inherited [valueOf] returns the
    object itself, so the conversion throws. *)
Fixpoint ToString (v : value) : result string :=
  match v with
  | VUndefined => Ok "undefined"
  | VNull => Ok "null"
  | VBool true => Ok "true"
  | VBool false => Ok "false"
  | VNum x => Ok (number_toString x)
  | VStr s => Ok s
  | VArr elems =>
      (fix join (l : list value) : result string :=
         match l with
         | [] => Ok ""
         | x :: rest =>
             s <- match x with
                  | VUndefined | VNull => Ok ""
                  | _ => ToString x
                  end ;;
             match rest with
             | [] => Ok s
             | _ :: _ => t <- join rest ;; Ok (s ++ "," ++ t)
             end
         end) elems
  | VObj props =>
      if has_key "toString" props
      then Throw (mkExn TypeError "Cannot convert object to primitive value")
      else Ok "[object Object]"
  end.

End Values.

Arguments value number : clear implicits.

(** ** Query parameters *)

(** What Express puts in [req.query]: a string, or, for repeated keys and the
    bracket syntax, an array or a plain object of such.  The query parser
    keeps every key, [toString] included ([?count[toString]=1] gives
    [{toString: '1'}]). *)
Inductive qvalue : Type :=
| QStr (s : string)
| QArr (elems : list qvalue)
| QObj (props : list (string * qvalue)).

(** ToBoolean of [req.query.k], [None] standing for [undefined]. *)
Definition qtruthy (q : option qvalue) : bool :=
  match q with
  | None => false
  | Some (QStr s) => negb (String.eqb s "")
  | Some (QArr _) | Some (QObj _) => true
  end.

(** ToString of a query value.  An array is joined with commas.  An object
    prints through [Object.prototype.toString] unless it has an own
    [toString] property: that one is a string, an array or an object, never
    a function, so the conversion throws. *)
Fixpoint qToString (q : qvalue) : result string :=
  match q with
  | QStr s => Ok s
  | QArr elems =>
      (fix join (l : list qvalue) : result string :=
         match l with
         | [] => Ok ""
         | x :: rest =>
             s <- qToString x ;;
             match rest with
             | [] => Ok s
             | _ :: _ => t <- join rest ;; Ok (s ++ "," ++ t)
             end
         end) elems
  | QObj props =>
      if has_key "toString" props
      then Throw (mkExn TypeError "Cannot convert object to primitive value")
      else Ok "[object Object]"
  end.

(** ToString of [req.query.k]. *)
Definition query_toString (q : option qvalue) : result string :=
  match q with
  | None => Ok "undefined"
  | Some v => qToString v
  end.

(** ** Strings *)

(** A string is the sequence of the bytes of its UTF-8 encoding. *)

Definition byte (c : ascii) : Z := Z.of_nat (nat_of_ascii c).

Definition is_digit (c : ascii) : bool :=
  (48 <=? byte c) && (byte c <=? 57).

Definition is_alpha (c : ascii) : bool :=
  ((65 <=? byte c) && (byte c <=? 90)) || ((97 <=? byte c) && (byte c <=? 122)).

(** The characters [encodeURIComponent] leaves alone:
    letters, digits and [- _ . ! ~ * ' ( )]. *)
Definition uri_unreserved (c : ascii) : bool :=
  is_alpha c || is_digit c ||
  existsb (Z.eqb (byte c)) [45; 95; 46; 33; 126; 42; 39; 40; 41].

Definition hex_digit (n : Z) : ascii :=
  ascii_of_nat (Z.to_nat (if n <? 10 then 48 + n else 55 + n)).

(** [encodeURIComponent] on well-formed text: every byte of the UTF-8
    encoding outside the unreserved set becomes [%XX], in upper case. *)
Fixpoint encodeURIComponent (s : string) : string :=
  match s with
  | EmptyString => EmptyString
  | String c rest =>
      if uri_unreserved c
      then String c (encodeURIComponent rest)
      else String "%" (String (hex_digit (byte c / 16))
             (String (hex_digit (byte c mod 16)) (encodeURIComponent rest)))
  end.

(** The white space and line terminators that [parseInt] skips, as UTF-8:
    TAB, LF, VT, FF, CR, SP; U+00A0; U+1680; U+2000..U+200A, U+2028, U+2029,
    U+202F; U+205F; U+3000; U+FEFF. *)
Fixpoint trim_start (s : string) : string :=
  match s with
  | String c rest =>
      if existsb (Z.eqb (byte c)) [9; 10; 11; 12; 13; 32] then trim_start rest
      else
        match rest with
        | String c1 rest1 =>
            if (byte c =? 194) && (byte c1 =? 160) then trim_start rest1
            else
              match rest1 with
              | String c2 rest2 =>
                  let b := byte c in
                  let b1 := byte c1 in
                  let b2 := byte c2 in
                  if ((b =? 225) && (b1 =? 154) && (b2 =? 128))
                     || ((b =? 226) && (b1 =? 128)
                         && (((128 <=? b2) && (b2 <=? 138))
                             || (b2 =? 168) || (b2 =? 169) || (b2 =? 175)))
                     || ((b =? 226) && (b1 =? 129) && (b2 =? 159))
                     || ((b =? 227) && (b1 =? 128) && (b2 =? 128))
                     || ((b =? 239) && (b1 =? 187) && (b2 =? 191))
                  then trim_start rest2
                  else s
              | EmptyString => s
              end
        | EmptyString => s
        end
  | EmptyString => s
  end.

(** The value of the longest prefix of decimal digits, [None] when the
    prefix is empty. *)
Fixpoint digits (acc : option Z) (s : string) : option Z :=
  match s with
  | String c rest =>
      if is_digit c
      then digits (Some (10 * match acc with Some a => a | None => 0 end
                         + (byte c - 48))) rest
      else acc
  | EmptyString => acc
  end.

(** The string starts with a decimal digit. *)
Definition starts_with_digit (s : string) : bool :=
  match s with
  | String c _ => is_digit c
  | EmptyString => false
  end.

(** The numbers [parseInt] returns: NaN, a double whose value is an integer,
    or an infinity.  [-0] is [Finite 0], and as falsy as it. *)
Inductive double_int : Type :=
| NaN
| Finite (n : Z)
| Infinity (negative : bool).

(** The double nearest to an integer, ties to the even mantissa: exact up to
    2^53, then the 53 leading bits rounded, and an infinity from 2^1024. *)
Definition to_double (n : Z) : double_int :=
  let a := Z.abs n in
  if a <? 2 ^ 53 then Finite n
  else
    let e := Z.log2 a - 52 in
    let q := a / 2 ^ e in
    let r := a mod 2 ^ e in
    let half := 2 ^ (e - 1) in
    let q' := if (half <? r) || ((r =? half) && Z.odd q) then q + 1 else q in
    let m := q' * 2 ^ e in
    if 2 ^ 1024 <=? m then Infinity (n <? 0) else Finite (Z.sgn n * m).

(** [parseInt(s, 10)]: white space, a sign, then the longest prefix of
    digits, whose value is rounded to a double; NaN without a digit. *)
Definition parseInt (s : string) : double_int :=
  let number (sign : Z) (value : option Z) :=
    match value with
    | Some v => to_double (sign * v)
    | None => NaN
    end in
  match trim_start s with
  | String "-" rest => number (-1) (digits None rest)
  | String "+" rest => number 1 (digits None rest)
  | t => number 1 (digits None t)
  end.

(** [sub] occurs in [s]. *)
Definition contains (sub s : string) : Prop :=
  exists before after, s = before ++ sub ++ after.

(** Every character of [s] satisfies [p]. *)
Fixpoint string_forallb (p : ascii -> bool) (s : string) : bool :=
  match s with
  | EmptyString => true
  | String c rest => p c && string_forallb p rest
  end.

(** ** The network and the handlers' effects *)

Section Services.

Context {number : Type} `{JsNumber number}.

Local Abbreviation value := (value number).

(** An outbound [fetch(url, {headers})]. *)
Record request : Type := mkRequest {
  url : string;
  headers : list (string * string)
}.

(** What the code reads of a fetch response: [res.status] (the status code
    of the HTTP answer, an integer of three digits), [res.statusText] and
    the outcome of [res.json()], which parses the body or throws. *)
Record fetch_response : Type := mkFetchResponse {
  status : Z;
  statusText : string;
  json : result value
}.

(** [res.ok]: the status is in the range 200-299. *)
Definition ok (res : fetch_response) : bool :=
  (200 <=? status res) && (status res <? 300).

(** The promise returned by [fetch] rejects (DNS, connection, bad URL) or
    resolves with a response, whatever its status. *)
Inductive fetch_outcome : Type :=
| Rejected (e : exn)
| Resolved (res : fetch_response).

(** An async function body: it returns, or awaits a fetch and continues with
    its outcome, or writes to the console and continues. *)
Inductive io (A : Type) : Type :=
| Ret (a : A)
| Fetch (rq : request) (k : fetch_outcome -> io A)
| ConsoleError (e : exn) (k : io A).
Arguments Ret {A} a.
Arguments Fetch {A} rq k.
Arguments ConsoleError {A} e k.

Fixpoint io_bind {A B : Type} (p : io A) (f : A -> io B) : io B :=
  match p with
  | Ret a => f a
  | Fetch rq k => Fetch rq (fun out => io_bind (k out) f)
  | ConsoleError e k => ConsoleError e (io_bind k f)
  end.

(** The network answers each outbound request. *)
Definition network : Type := request -> fetch_outcome.

Inductive event : Type :=
| Fetched (rq : request)
| Logged (e : exn).

(** Run a handler against a network: what it did, in order, and its result. *)
Fixpoint run {A : Type} (net : network) (p : io A) : list event * A :=
  match p with
  | Ret a => ([], a)
  | Fetch rq k =>
      let (trace, a) := run net (k (net rq)) in (Fetched rq :: trace, a)
  | ConsoleError e k =>
      let (trace, a) := run net k in (Logged e :: trace, a)
  end.

(** ** Express requests and responses *)

(** [req.query]. *)
Record express_request : Type := mkExpressRequest {
  query : list (string * qvalue)
}.

(** An ad creative, [{headline, text, cta, color}]. *)
Record ad : Type := mkAd {
  headline : string;
  text : string;
  cta : string;
  color : value
}.

(** The bodies the two services send with [res.json]. *)
Inductive payload : Type :=
| ErrorBody (error : string)                        (* {error} *)
| JsonBody (data : value)                           (* data *)
| AdsBody (domain : option qvalue) (ads : list ad). (* {domain, ads} *)

(** [res.status(code).json(body)]; a bare [res.json(body)] has status 200. *)
Record response : Type := mkResponse {
  status_code : Z;
  body : payload
}.

(** [process.env], read once when a service starts. *)
Record process_env : Type := mkEnv {
  BRANDFETCH_KEY : option string;
  BRANDFETCH_URL : option string
}.

Variable env : process_env.

(** ** The brand proxy *)

Definition API_KEY : option string := BRANDFETCH_KEY env.

(** [`${API_KEY}`]: an unset key prints as [undefined]. *)
Definition API_KEY_text : string :=
  match API_KEY with
  | Some k => k
  | None => "undefined"
  end.

(** The URL the proxy fetches,
    [`https://api.brandfetch.io/v2/brands/${domain}`]; the template literal
    throws when the domain cannot be printed. *)
Definition brandkit_url (domain : option qvalue) : result string :=
  d <- query_toString domain ;;
  Ok ("https://api.brandfetch.io/v2/brands/" ++ d).

(** [app.get('/brandkit', ...)]: the whole body is inside the [try]. *)
Definition brandkit (req : express_request) : io response :=
  let domain := lookup "domain" (query req) in
  match brandkit_url domain with
  | Throw error => Ret (mkResponse 500 (ErrorBody (message error)))
  | Ok url =>
      Fetch (mkRequest url [("Authorization", "Bearer " ++ API_KEY_text)])
        (fun out =>
           match out with
           | Rejected error => Ret (mkResponse 500 (ErrorBody (message error)))
           | Resolved res =>
               match json res with
               | Ok data => Ret (mkResponse 200 (JsonBody data))
               | Throw error =>
                   Ret (mkResponse 500 (ErrorBody (message error)))
               end
           end)
  end.

(** ** The ads generator *)

(** [process.env.BRANDFETCH_URL || '...']: an empty variable is falsy. *)
Definition BRAND_PROXY_BASE : string :=
  match BRANDFETCH_URL env with
  | Some u =>
      if String.eqb u "" then "https://render-project-cx98.onrender.com/brandkit"
      else u
  | None => "https://render-project-cx98.onrender.com/brandkit"
  end.

(** What a template returns, [{headline, text, cta}]. *)
Record creative : Type := mkCreative {
  creative_headline : string;
  creative_text : string;
  creative_cta : string
}.

(** A template is a function of the brand; each [${brand}] of its template
    literals converts the brand to a string. *)
Definition template : Type := value -> result creative.

Definition template0 : template := fun brand =>
  b <- ToString brand ;;
  Ok (mkCreative
        ("Experience " ++ b ++ " first‑hand")
        ("See how " ++ b ++ " can transform your business. Book a live demo today!")
        "REQUEST_DEMO").

Definition template1 : template := fun brand =>
  b <- ToString brand ;;
  Ok (mkCreative
        ("Join our upcoming " ++ b ++ " webinar")
        ("Learn industry best practices and how " ++ b ++ " is leading the way in innovation. Reserve your seat now.")
        "ATTEND").

Definition template2 : template := fun brand =>
  b <- ToString brand ;;
  Ok (mkCreative
        ("Ready to get started with " ++ b ++ "?")
        ("Apply now and start leveraging " ++ b ++ " to grow your business.")
        "APPLY_NOW").

Definition template3 : template := fun brand =>
  b <- ToString brand ;;
  Ok (mkCreative
        ("Unlock your exclusive " ++ b ++ " guide")
        ("Download the full document and learn how " ++ b ++ " can help you optimise workflows.")
        "UNLOCK_FULL_DOCUMENT").

Definition template4 : template := fun brand =>
  b <- ToString brand ;;
  Ok (mkCreative
        ("Discover the power of " ++ b ++ "")
        ("Learn more about " ++ b ++ "'s solutions and see why industry leaders choose us.")
        "LEARN_MORE").

Definition template5 : template := fun brand =>
  b <- ToString brand ;;
  Ok (mkCreative
        ("Start your free trial of " ++ b ++ "")
        ("Sign up today and experience the benefits of " ++ b ++ " without any commitment.")
        "SIGN_UP").

Definition template6 : template := fun brand =>
  b <- ToString brand ;;
  Ok (mkCreative
        ("Free eBook: " ++ b ++ " best practices")
        ("Download our free eBook packed with insights and strategies to get the most out of " ++ b ++ ".")
        "DOWNLOAD").

Definition template7 : template := fun brand =>
  b <- ToString brand ;;
  Ok (mkCreative
        ("Get your personalised " ++ b ++ " quote")
        ("Find out how affordable " ++ b ++ " can be for your organisation.")
        "GET_QUOTE").

Definition template8 : template := fun brand =>
  b <- ToString brand ;;
  Ok (mkCreative
        ("Register for an upcoming " ++ b ++ " workshop")
        ("Hands‑on training from the experts. Reserve your spot and accelerate your learning.")
        "REGISTER").

Definition template9 : template := fun brand =>
  b <- ToString brand ;;
  Ok (mkCreative
        ("Join the " ++ b ++ " community")
        ("Be part of a vibrant network of professionals and stay ahead with the latest updates from " ++ b ++ ".")
        "JOIN").

Definition templates : list template :=
  [template0; template1; template2; template3; template4;
   template5; template6; template7; template8; template9].

(** The call [templateFn(brandName)] when [templateFn] may be [undefined]. *)
Definition call_template (templateFn : option template) (brand : value)
  : result creative :=
  match templateFn with
  | Some f => f brand
  | None => Throw (mkExn TypeError "templateFn is not a function")
  end.

(** The [url] of [fetchBrandKit],
    [`${BRAND_PROXY_BASE}?domain=${encodeURIComponent(domain)}`];
    [encodeURIComponent] first converts the domain to a string, and throws
    when that conversion does. *)
Definition fetchBrandKit_url (domain : option qvalue) : result string :=
  d <- query_toString domain ;;
  Ok (BRAND_PROXY_BASE ++ "?domain=" ++ encodeURIComponent d).

(** The request [fetchBrandKit] sends, [fetch(url)] without options, when
    the URL can be built. *)
Definition kit_request (domain : option qvalue) : result request :=
  url <- fetchBrandKit_url domain ;;
  Ok (mkRequest url []).

(** [fetchBrandKit(domain)]: the promise rejects with what building the URL
    throws, before any fetch. *)
Definition fetchBrandKit (domain : option qvalue) : io (result value) :=
  match fetchBrandKit_url domain with
  | Throw e => Ret (Throw e)
  | Ok url =>
      Fetch (mkRequest url [])
        (fun out =>
           match out with
           | Rejected e => Ret (Throw e)
           | Resolved res =>
               if negb (ok res)
               then Ret (d <- query_toString domain ;;
                         Throw (mkExn Error
                           ("Failed to fetch brand kit for " ++ d ++ ": "
                            ++ string_of_Z (status res) ++ " "
                            ++ statusText res)))
               else Ret (json res)
           end)
  end.

(** [kit.name || kit.domain || 'Your brand']. *)
Definition brandName (kit : value) : result value :=
  name <- get kit "name" ;;
  if truthy name then Ok name
  else
    domain <- get kit "domain" ;;
    if truthy domain then Ok domain
    else Ok (VStr "Your brand").

(** [colors.find((c) => c.hex)]: the first element whose [hex] is truthy,
    [undefined] when there is none. *)
Fixpoint find_hex (colors : list value) : result value :=
  match colors with
  | [] => Ok VUndefined
  | c :: rest =>
      hex <- get c "hex" ;;
      if truthy hex then Ok c else find_hex rest
  end.

(** The value of [primaryColour] when the loop starts. *)
Definition primaryColour (kit : value) : result value :=
  colors <- get kit "colors" ;;
  match colors with
  | VArr (c :: rest) =>
      accent <- find_hex (c :: rest) ;;
      if truthy accent
      then
        hex <- get accent "hex" ;;
        if truthy hex then Ok hex else Ok (VStr "#0052cc")
      else Ok (VStr "#0052cc")
  | _ => Ok (VStr "#0052cc")
  end.

(** [for (let i = 0; i < count; i++) { ... }], entered at index [i] with
    [remaining] iterations to go; [i % templates.length] truncates, as
    [Z.rem]. *)
Fixpoint for_loop (brand colour : value) (remaining : nat) (i : Z)
    (ads : list ad) : result (list ad) :=
  match remaining with
  | O => Ok ads
  | S remaining' =>
      let templateFn :=
        if Z.rem i (Z.of_nat (length templates)) <? 0 then None
        else nth_error templates
               (Z.to_nat (Z.rem i (Z.of_nat (length templates)))) in
      c <- call_template templateFn brand ;;
      for_loop brand colour remaining' (i + 1)
        (ads ++ [mkAd (creative_headline c) (creative_text c) (creative_cta c)
                      colour])
  end.

(** [generateAdsForKit(kit, count)] for an integer count, the array taken
    as a list without bound.  The loop runs once for each integer [i] with
    [0 <= i < count]. *)
Definition generateAdsForKit (kit : value) (count : Z) : result (list ad) :=
  brand <- brandName kit ;;
  colour <- primaryColour kit ;;
  for_loop brand colour (Z.to_nat count) 0 [].

(** [generateAdsForKit(kit, count)] for any number [parseInt] returns.  An
    array holds at most 2^32 - 1 elements: with a larger count, [Infinity]
    included, the [push] that would make the 2^32-th throws a RangeError,
    unless the call has thrown before, which it does before the loop or in
    its first iteration.  At [-Infinity] and NaN the test [i < count] fails
    at once. *)
Definition generateAdsForKit_number (kit : value) (count : double_int)
  : result (list ad) :=
  let overflow :=
    _ <- generateAdsForKit kit 1 ;;
    Throw (mkExn RangeError "Invalid array length") in
  match count with
  | Finite n => if n <=? 2 ^ 32 - 1 then generateAdsForKit kit n else overflow
  | Infinity false => overflow
  | Infinity true | NaN => generateAdsForKit kit 0
  end.

(** The number of iterations of the loop for a count, when the array can
    hold their ads. *)
Definition iterations (count : double_int) : option nat :=
  match count with
  | Finite n => if n <=? 2 ^ 32 - 1 then Some (Z.to_nat n) else None
  | Infinity false => None
  | Infinity true | NaN => Some O
  end.

(** [parseInt(req.query.count, 10) || 3]: NaN and 0 are falsy; [parseInt]
    first converts its argument to a string, and throws when that conversion
    does. *)
Definition parse_count (count : option qvalue) : result double_int :=
  s <- query_toString count ;;
  Ok (match parseInt s with
      | NaN => Finite 3
      | Finite n => if n =? 0 then Finite 3 else Finite n
      | Infinity negative => Infinity negative
      end).

(** How a call of the handler ends. *)
Inductive handled : Type :=
| Sent (res : response)   (* [res.json(...)] is called *)
| Thrown (e : exn).       (* the handler throws outside its [try]: it sends
                             nothing *)

(** [app.get('/generate-ads', ...)].  The count is parsed first, outside the
    [try]; the fetch and the generation are inside. *)
Definition generate_ads (req : express_request) : io handled :=
  let domain := lookup "domain" (query req) in
  match parse_count (lookup "count" (query req)) with
  | Throw e => Ret (Thrown e)
  | Ok count =>
      if negb (qtruthy domain)
      then Ret (Sent (mkResponse 400
                        (ErrorBody "Missing required query parameter: domain")))
      else
        io_bind (fetchBrandKit domain)
          (fun fetched =>
             match fetched with
             | Throw err =>
                 ConsoleError err
                   (Ret (Sent (mkResponse 500 (ErrorBody (message err)))))
             | Ok kit =>
                 match generateAdsForKit_number kit count with
                 | Ok ads => Ret (Sent (mkResponse 200 (AdsBody domain ads)))
                 | Throw err =>
                     ConsoleError err
                       (Ret (Sent (mkResponse 500 (ErrorBody (message err)))))
                 end
             end)
  end.

End Services.

Arguments fetch_response number : clear implicits.
Arguments fetch_outcome number : clear implicits.
Arguments io number A : clear implicits.
Arguments network number : clear implicits.
Arguments ad number : clear implicits.
Arguments payload number : clear implicits.
Arguments response number : clear implicits.
Arguments handled number : clear implicits.
Arguments template number : clear implicits.

(** ** Sample inputs *)

(** The numbers of the samples are the integers of [int53]. *)

Definition env0 : process_env := mkEnv None None.

(** [GET /generate-ads?domain=acme.com&count=12]. *)
Definition req_acme_12 : express_request :=
  mkExpressRequest [("domain", QStr "acme.com"); ("count", QStr "12")].

(** [GET /generate-ads?domain=acme.com&count=0]. *)
Definition req_acme_0 : express_request :=
  mkExpressRequest [("domain", QStr "acme.com"); ("count", QStr "0")].

(** [GET /generate-ads?domain=acme.com&count=-2]. *)
Definition req_acme_neg : express_request :=
  mkExpressRequest [("domain", QStr "acme.com"); ("count", QStr "-2")].

(** [GET /generate-ads?domain=a%2Fb], whose [domain] decodes to [a/b]. *)
Definition req_slash : express_request :=
  mkExpressRequest [("domain", QStr "a/b")].



(** [GET /generate-ads?domain[toString]=x&count=1]. *)
Definition req_domain_object : express_request :=
  mkExpressRequest [("domain", QObj [("toString", QStr "x")]);
                    ("count", QStr "1")].

(** [{name: "Acme", colors: [{hex: null}, {hex: "#abc123"}]}]. *)
Definition kit_acme : value int53 :=
  VObj [("name", VStr "Acme");
        ("colors", VArr [VObj [("hex", VNull)]; VObj [("hex", VStr "#abc123")]])].

(** [{name: "Acme"}], [{domain: "acme.com"}], [{}] and
    [{name: "", domain: "acme.com"}]. *)
Definition kit_name : value int53 := VObj [("name", VStr "Acme")].
Definition kit_domain : value int53 := VObj [("domain", VStr "acme.com")].
Definition kit_empty : value int53 := VObj [].
Definition kit_empty_name : value int53 :=
  VObj [("name", VStr ""); ("domain", VStr "acme.com")].

(** An environment with a key and a local proxy. *)
Definition env_local : process_env :=
  mkEnv (Some "secret") (Some "http://localhost:3000/brandkit").

(** A network that answers every request with the same response. *)
Definition net_always (res : fetch_response int53) : network int53 :=
  fun _ => Resolved res.

Definition res_acme : fetch_response int53 := mkFetchResponse 200 "OK" (Ok kit_acme).


(** A successful answer whose body is the JSON [null]. *)
Definition res_null : fetch_response int53 := mkFetchResponse 200 "OK" (Ok VNull).

(** A network without a route to the proxy. *)
Definition net_down : network int53 :=
  fun _ => Rejected (mkExn FetchError "connect ECONNREFUSED 127.0.0.1:3000").

(** [{name: "Acme", colors: [{hex: null}, null, {hex: "#abc123"}]}]. *)
Definition kit_null_colour : value int53 :=
  VObj [("name", VStr "Acme");
        ("colors", VArr [VObj [("hex", VNull)]; VNull;
                         VObj [("hex", VStr "#abc123")]])].

(** [{name: "Acme", colors: [{hex: null}, {hex: "#abc123"}, null]}]. *)
Definition kit_acme_tail : value int53 :=
  VObj [("name", VStr "Acme");
        ("colors", VArr [VObj [("hex", VNull)]; VObj [("hex", VStr "#abc123")];
                         VNull])].

(** [{name: "Acme", colors: [{hex: null}, {hex: ""}]}]. *)
Definition kit_no_hex : value int53 :=
  VObj [("name", VStr "Acme");
        ("colors", VArr [VObj [("hex", VNull)]; VObj [("hex", VStr "")]])].

(** The ads of [generateAdsForKit(kit, count)] when it returns. *)
Definition returned_ads (kit : value int53) (count : Z) : list (ad int53) :=
  match generateAdsForKit kit count with
  | Ok ads => ads
  | Throw _ => []
  end.

(** * Properties *)

Section Properties.

Local Open Scope list_scope.

Context {number : Type} `{JsNumber number}.

Local Abbreviation value := (value number).
Local Abbreviation ad := (ad number).
Local Abbreviation template := (template number).

(** ** Strings *)


(** ** Templates and the loop *)

(** A template succeeds on every brand that prints. *)
Lemma templates_print (brand : value) (s : string) (k : nat) (t : template) :
  ToString brand = Ok s ->
  nth_error templates k = Some t ->
  exists c, t brand = Ok c.
Proof.
  intros Hs Hk.
  assert (Hin : In t templates) by (eapply nth_error_In; eauto).
  unfold templates in Hin; simpl in Hin.
  repeat (destruct Hin as [<- | Hin];
          [ unfold template0, template1, template2, template3, template4,
              template5, template6, template7, template8, template9;
            rewrite Hs; cbn [bind]; eexists; reflexivity | ]).
  contradiction.
Qed.

(** A template throws what printing the brand throws. *)
Lemma templates_throw (brand : value) (e : exn) (k : nat) (t : template) :
  ToString brand = Throw e ->
  nth_error templates k = Some t ->
  t brand = Throw e.
Proof.
  intros Hs Hk.
  assert (Hin : In t templates) by (eapply nth_error_In; eauto).
  unfold templates in Hin; simpl in Hin.
  repeat (destruct Hin as [<- | Hin];
          [ unfold template0, template1, template2, template3, template4,
              template5, template6, template7, template8, template9;
            rewrite Hs; reflexivity | ]).
  contradiction.
Qed.

Lemma templates_length : length (templates (number := number)) = 10%nat.
Proof. reflexivity. Qed.

(** The template the loop picks at a non-negative index. *)
Lemma template_at (i : Z) :
  0 <= i ->
  Z.rem i 10 = i mod 10 /\
  exists t : template, nth_error templates (Z.to_nat (i mod 10)) = Some t.
Proof.
  intros Hi.
  assert (Hrem : Z.rem i 10 = i mod 10) by (apply Z.rem_mod_nonneg; lia).
  split; [exact Hrem|].
  assert (Hlt : (Z.to_nat (i mod 10) < length (templates (number := number)))%nat).
  { rewrite templates_length. pose proof (Z.mod_pos_bound i 10). lia. }
  apply nth_error_Some in Hlt.
  destruct (nth_error templates (Z.to_nat (i mod 10))) as [t|]; [eauto | congruence].
Qed.

(** One step of the loop, at a non-negative index. *)
Lemma for_loop_step (brand colour : value) (remaining : nat) (i : Z)
    (ads : list ad) :
  0 <= i ->
  for_loop brand colour (S remaining) i ads =
  (c <- call_template (nth_error templates (Z.to_nat (i mod 10))) brand ;;
   for_loop brand colour remaining (i + 1)
     (ads ++ [mkAd (creative_headline c) (creative_text c) (creative_cta c)
                   colour])).
Proof.
  intros Hi. destruct (template_at i Hi) as [Hrem _].
  cbn [for_loop]. rewrite templates_length.
  change (Z.of_nat 10) with 10. rewrite Hrem.
  pose proof (Z.mod_pos_bound i 10 ltac:(lia)) as Hb.
  destruct (i mod 10 <? 0) eqn:Hneg; [apply Z.ltb_lt in Hneg; lia | reflexivity].
Qed.

(** What the loop returns when the brand prints: it appends one ad for each
    remaining index, made by the template at that index modulo 10 and
    carrying the colour. *)
Lemma for_loop_spec (brand colour : value) (s : string) :
  ToString brand = Ok s ->
  forall (remaining : nat) (i : Z) (ads : list ad),
    0 <= i ->
    exists more,
      for_loop brand colour remaining i ads = Ok (ads ++ more) /\
      length more = remaining /\
      Forall (fun a => color a = colour) more /\
      forall j, (j < remaining)%nat ->
        exists (t : template) c,
          nth_error templates (Z.to_nat ((i + Z.of_nat j) mod 10)) = Some t /\
          t brand = Ok c /\
          nth_error more j =
            Some (mkAd (creative_headline c) (creative_text c) (creative_cta c)
                       colour).
Proof.
  intros Hs. induction remaining as [|r IH]; intros i ads Hi.
  - exists []. rewrite app_nil_r. repeat split; auto. intros j Hj; lia.
  - rewrite for_loop_step by assumption.
    destruct (template_at i Hi) as [_ [t Ht]].
    destruct (templates_print brand s _ t Hs Ht) as [c Hc].
    rewrite Ht. cbn [call_template]. rewrite Hc. cbn [bind].
    set (a := mkAd (creative_headline c) (creative_text c) (creative_cta c) colour).
    destruct (IH (i + 1) (ads ++ [a]) ltac:(lia)) as (more & Hrun & Hlen & Hcol & Hnth).
    exists (a :: more). rewrite Hrun, <- app_assoc. repeat split.
    + simpl. now rewrite Hlen.
    + constructor; [reflexivity | assumption].
    + intros [|j] Hj.
      * exists t, c. rewrite Z.add_0_r. auto.
      * destruct (Hnth j ltac:(lia)) as (t' & c' & Ht' & Hc' & Hj').
        exists t', c'. replace (i + Z.of_nat (S j)) with (i + 1 + Z.of_nat j) by lia.
        auto.
Qed.

(** When printing the brand throws, so does the first iteration. *)
Lemma for_loop_throw (brand colour : value) (e : exn) (remaining : nat)
    (i : Z) (ads : list ad) :
  ToString brand = Throw e ->
  0 <= i ->
  for_loop brand colour (S remaining) i ads = Throw e.
Proof.
  intros Hs Hi. rewrite for_loop_step by assumption.
  destruct (template_at i Hi) as [_ [t Ht]].
  rewrite Ht. cbn [call_template].
  now rewrite (templates_throw brand e _ t Hs Ht).
Qed.

(** Whatever the brand, the ads the loop adds carry the colour. *)
Lemma for_loop_colour (brand colour : value) (remaining : nat) (ads out : list ad) :
  for_loop brand colour remaining 0 ads = Ok out ->
  exists more, out = ads ++ more /\ length more = remaining /\
               Forall (fun a => color a = colour) more.
Proof.
  intros Hrun. destruct (ToString brand) as [s|e] eqn:Hs.
  - destruct (for_loop_spec brand colour s Hs remaining 0 ads ltac:(lia))
      as (more & Hrun' & Hlen & Hcol & _).
    exists more. rewrite Hrun' in Hrun. now inversion Hrun.
  - destruct remaining as [|r].
    + cbn in Hrun. inversion Hrun. exists []. now rewrite app_nil_r.
    + rewrite (for_loop_throw brand colour e) in Hrun by (assumption || lia).
      discriminate.
Qed.

(** ** [generateAdsForKit] *)

(** With a brand that prints and a colour, [generateAdsForKit] returns one ad
    for each index below [count]. *)
Lemma generateAdsForKit_ok (kit brand colour : value) (s : string) (count : Z) :
  brandName kit = Ok brand ->
  ToString brand = Ok s ->
  primaryColour kit = Ok colour ->
  exists ads,
    generateAdsForKit kit count = Ok ads /\
    length ads = Z.to_nat count /\
    Forall (fun a => color a = colour) ads /\
    forall j, (j < Z.to_nat count)%nat ->
      exists (t : template) c,
        nth_error templates (Z.to_nat (Z.of_nat j mod 10)) = Some t /\
        t brand = Ok c /\
        nth_error ads j =
          Some (mkAd (creative_headline c) (creative_text c) (creative_cta c)
                     colour).
Proof.
  intros Hb Hs Hc. unfold generateAdsForKit. rewrite Hb, Hc. cbn [bind].
  destruct (for_loop_spec brand colour s Hs (Z.to_nat count) 0 [] ltac:(lia))
    as (more & Hrun & Hlen & Hcol & Hnth).
  exists more. cbn [app] in Hrun. repeat split; auto.
Qed.

(** Without iterations nothing is printed: the result is empty as soon as the
    name and the colour resolve. *)
Lemma generateAdsForKit_nonpositive (kit brand colour : value) (count : Z) :
  brandName kit = Ok brand ->
  primaryColour kit = Ok colour ->
  count <= 0 ->
  generateAdsForKit kit count = Ok [].
Proof.
  intros Hb Hc Hle. unfold generateAdsForKit. rewrite Hb, Hc. cbn [bind].
  replace (Z.to_nat count) with 0%nat by lia. reflexivity.
Qed.

(** Every ad that [generateAdsForKit] returns carries [primaryColour]. *)
Lemma generateAdsForKit_colour (kit colour : value) (count : Z) (ads : list ad) :
  primaryColour kit = Ok colour ->
  generateAdsForKit kit count = Ok ads ->
  Forall (fun a => color a = colour) ads.
Proof.
  intros Hc. unfold generateAdsForKit.
  destruct (brandName kit) as [brand|e]; [|discriminate].
  rewrite Hc. cbn [bind]. intros Hrun.
  destruct (for_loop_colour _ _ _ _ _ Hrun) as (more & -> & _ & Hcol).
  exact Hcol.
Qed.

(** [generateAdsForKit] throws what [primaryColour] throws, unless the name
    has thrown before. *)
Lemma generateAdsForKit_throw (kit : value) (e : exn) (count : Z) :
  primaryColour kit = Throw e ->
  exists e', generateAdsForKit kit count = Throw e'.
Proof.
  intros Hc. unfold generateAdsForKit.
  destruct (brandName kit) as [brand|e0]; cbn [bind]; [|eauto].
  rewrite Hc. cbn [bind]. eauto.
Qed.

(** An ad list that [generateAdsForKit] returns was made from the resolved
    brand name and colour, by the templates in their cyclic order. *)
Lemma generateAdsForKit_inv (kit : value) (count : Z) (ads : list ad) :
  generateAdsForKit kit count = Ok ads ->
  exists brand colour,
    brandName kit = Ok brand /\
    primaryColour kit = Ok colour /\
    length ads = Z.to_nat count /\
    forall j, (j < length ads)%nat ->
      exists (t : template) c,
        nth_error templates (Z.to_nat (Z.of_nat j mod 10)) = Some t /\
        t brand = Ok c /\
        nth_error ads j =
          Some (mkAd (creative_headline c) (creative_text c) (creative_cta c)
                     colour).
Proof.
  intros Hrun.
  destruct (brandName kit) as [brand|e] eqn:Hb;
    [|unfold generateAdsForKit in Hrun; rewrite Hb in Hrun; discriminate].
  destruct (primaryColour kit) as [colour|e] eqn:Hc;
    [|unfold generateAdsForKit in Hrun; rewrite Hb, Hc in Hrun; discriminate].
  exists brand, colour. split; [reflexivity|]. split; [reflexivity|].
  destruct (ToString brand) as [s|e] eqn:Hs.
  - destruct (generateAdsForKit_ok kit brand colour s count Hb Hs Hc)
      as (ads' & Hrun' & Hlen & _ & Hnth).
    rewrite Hrun in Hrun'. inversion Hrun'; subst ads'.
    split; [exact Hlen|]. intros j Hj. apply Hnth. lia.
  - unfold generateAdsForKit in Hrun. rewrite Hb, Hc in Hrun. cbn [bind] in Hrun.
    destruct (Z.to_nat count) as [|r] eqn:Hn.
    + cbn in Hrun. inversion Hrun; subst ads. split; [reflexivity|].
      intros j Hj. cbn in Hj. lia.
    + rewrite (for_loop_throw brand colour e) in Hrun by (assumption || lia).
      discriminate.
Qed.

(** ** The brand name *)

(** A value with a readable property has all its properties readable. *)
Lemma get_total (v x : value) (key key' : string) :
  get v key = Ok x -> exists y, get v key' = Ok y.
Proof.
  destruct v; cbn; try discriminate; intros _; eauto.
  destruct (lookup key' props); eauto.
Qed.

Lemma brandName_total (kit x : value) (key : string) :
  get kit key = Ok x -> exists brand, brandName kit = Ok brand.
Proof.
  intros Hx. unfold brandName.
  destruct (get_total kit x key "name" Hx) as [name ->].
  destruct (get_total kit x key "domain" Hx) as [domain ->].
  cbn [bind]. destruct (truthy name), (truthy domain); eauto.
Qed.

(** Only an object has a truthy property. *)
Lemma truthy_property (c x : value) (key : string) :
  get c key = Ok x -> truthy x = true -> truthy c = true.
Proof.
  destruct c; cbn; try discriminate; try (intros [= <-]; discriminate); auto.
Qed.

(** C6, as amended: the brand name is [kit.name] when that is truthy (present
    and not empty, null, false or zero), else [kit.domain] when that is
    truthy, else the literal "Your brand"; and every ad returned was made by
    a template applied to that name. *)
Theorem brandName_resolution (kit name domain : value) :
  get kit "name" = Ok name ->
  get kit "domain" = Ok domain ->
  brandName kit =
    Ok (if truthy name then name
        else if truthy domain then domain
        else VStr "Your brand") /\
  forall count ads,
    generateAdsForKit kit count = Ok ads ->
    forall j, (j < length ads)%nat ->
      exists (t : template) c a,
        nth_error templates (Z.to_nat (Z.of_nat j mod 10)) = Some t /\
        t (if truthy name then name
           else if truthy domain then domain
           else VStr "Your brand") = Ok c /\
        nth_error ads j = Some a /\
        headline a = creative_headline c /\
        text a = creative_text c /\
        cta a = creative_cta c.
Proof.
  intros Hname Hdomain.
  assert (Hb : brandName kit =
               Ok (if truthy name then name
                   else if truthy domain then domain
                   else VStr "Your brand")).
  { unfold brandName. rewrite Hname, Hdomain. cbn [bind].
    destruct (truthy name), (truthy domain); reflexivity. }
  split; [exact Hb|].
  intros count ads Hrun j Hj.
  destruct (generateAdsForKit_inv kit count ads Hrun)
    as (brand & colour & Hb' & _ & _ & Hnth).
  rewrite Hb in Hb'. inversion Hb'; subst brand.
  destruct (Hnth j Hj) as (t & c & Ht & Hc & Ha).
  exists t, c, (mkAd (creative_headline c) (creative_text c) (creative_cta c) colour).
  repeat split; assumption.
Qed.

(** ** The primary colour *)

(** [find] stops at the first element with a truthy [hex], unless reading
    [hex] of an earlier element has thrown. *)
Lemma find_hex_first (before after : list value) (c hex : value) :
  Forall (fun x => forall h, get x "hex" = Ok h -> truthy h = false) before ->
  get c "hex" = Ok hex ->
  truthy hex = true ->
  find_hex (before ++ c :: after) = Ok c \/
  (exists e, find_hex (before ++ c :: after) = Throw e) /\
  ~ Forall (fun x => exists h, get x "hex" = Ok h) before.
Proof.
  intros Hbefore Hc Hhex. induction Hbefore as [|x before Hx _ IH].
  - left. cbn [app find_hex]. rewrite Hc. cbn [bind]. now rewrite Hhex.
  - cbn [app find_hex]. destruct (get x "hex") as [h|e] eqn:Hget.
    + cbn [bind]. rewrite (Hx h eq_refl).
      destruct IH as [IH | [IH Hnot]]; [now left | right].
      split; [exact IH|]. intros Hall. apply Hnot. now inversion Hall.
    + right. split; [cbn [bind]; eauto|].
      intros Hall. inversion Hall as [|? ? [h Hh] _]. congruence.
Qed.

(** [primaryColour] on colours with a first truthy hex. *)
Lemma primaryColour_first (kit : value) (before after : list value)
    (c hex : value) :
  get kit "colors" = Ok (VArr (before ++ c :: after)) ->
  Forall (fun x => forall h, get x "hex" = Ok h -> truthy h = false) before ->
  get c "hex" = Ok hex ->
  truthy hex = true ->
  primaryColour kit = Ok hex \/
  (exists e, primaryColour kit = Throw e) /\
  ~ Forall (fun x => exists h, get x "hex" = Ok h) before.
Proof.
  intros Hcolors Hbefore Hc Hhex. unfold primaryColour. rewrite Hcolors.
  cbn [bind].
  assert (Hne : exists c0 rest, before ++ c :: after = c0 :: rest)
    by (destruct before; cbn; eauto).
  destruct Hne as (c0 & rest & Hne). rewrite Hne, <- Hne.
  destruct (find_hex_first before after c hex Hbefore Hc Hhex)
    as [-> | [[e ->] Hnot]].
  - left. cbn [bind]. rewrite (truthy_property c hex "hex" Hc Hhex), Hc.
    cbn [bind]. now rewrite Hhex.
  - right. split; [cbn [bind]; eauto | exact Hnot].
Qed.

(** [find] returns when [hex] can be read of every element: [undefined], or
    one of the elements. *)
Lemma find_hex_total (colors : list value) :
  Forall (fun c => exists h, get c "hex" = Ok h) colors ->
  exists accent,
    find_hex colors = Ok accent /\ (accent = VUndefined \/ In accent colors).
Proof.
  induction 1 as [|c rest [h Hc] _ (accent & IH & Hin)]; cbn [find_hex].
  - exists VUndefined. auto.
  - rewrite Hc. cbn [bind]. destruct (truthy h).
    + exists c. split; [reflexivity | right; now left].
    + exists accent. split; [exact IH|].
      destruct Hin as [-> | Hin]; [now left | right; now right].
Qed.

(** The colour resolves for every kit that is not [null] and whose colours,
    when they are an array, hold no [null]: in particular for every object
    whose [colors] are objects. *)
Lemma primaryColour_total (kit colors : value) :
  get kit "colors" = Ok colors ->
  (forall entries,
     colors = VArr entries ->
     Forall (fun c => exists h, get c "hex" = Ok h) entries) ->
  exists colour, primaryColour kit = Ok colour.
Proof.
  intros Hcolors Hentries. unfold primaryColour. rewrite Hcolors. cbn [bind].
  destruct colors as [| | | | |[|c rest]|]; eauto.
  specialize (Hentries _ eq_refl).
  destruct (find_hex_total _ Hentries) as (accent & -> & Hin). cbn [bind].
  destruct (truthy accent) eqn:Ht; eauto.
  destruct Hin as [-> | Hin]; [discriminate|].
  rewrite Forall_forall in Hentries. destruct (Hentries _ Hin) as [h ->].
  cbn [bind]. destruct (truthy h); eauto.
Qed.

(** C3: when [kit.colors] is an array with a first entry whose [hex] is
    truthy, every generated ad carries that entry's [hex]; and ads are
    generated, one for each index below [count], as soon as [hex] can be
    read of the entries before it and the brand name prints.  In particular
    colors [[{hex: null}, {hex: "#abc123"}]] give "#abc123". *)
Theorem primary_colour_first_truthy_hex (kit : value)
    (before after : list value) (c hex : value) (count : Z) :
  get kit "colors" = Ok (VArr (before ++ c :: after)) ->
  Forall (fun x => forall h, get x "hex" = Ok h -> truthy h = false) before ->
  get c "hex" = Ok hex ->
  truthy hex = true ->
  (forall ads,
     generateAdsForKit kit count = Ok ads ->
     Forall (fun a => color a = hex) ads) /\
  (Forall (fun x => exists h, get x "hex" = Ok h) before ->
   forall brand s,
     brandName kit = Ok brand ->
     ToString brand = Ok s ->
     exists ads,
       generateAdsForKit kit count = Ok ads /\
       length ads = Z.to_nat count /\
       Forall (fun a => color a = hex) ads).
Proof.
  intros Hcolors Hbefore Hc Hhex.
  destruct (primaryColour_first kit before after c hex Hcolors Hbefore Hc Hhex)
    as [Hp | [[e Hp] Hnot]].
  - split.
    + intros ads. now apply generateAdsForKit_colour.
    + intros _ brand s Hb Hs.
      destruct (generateAdsForKit_ok kit brand hex s count Hb Hs Hp)
        as (ads & Hrun & Hlen & Hcol & _).
      eauto.
  - split.
    + intros ads Hrun.
      destruct (generateAdsForKit_throw kit e count Hp) as [e' He'].
      congruence.
    + intros Hall. contradiction.
Qed.

(** C4: when [kit.colors] is absent, or is anything but a non-empty array,
    the primary colour is the default "#0052cc", every generated ad carries
    it, and ads are generated, one for each index below [count], as soon as
    the brand name prints. *)
Theorem primary_colour_default (kit colors : value) (count : Z) :
  get kit "colors" = Ok colors ->
  is_nonempty_array colors = false ->
  primaryColour kit = Ok (VStr "#0052cc") /\
  (forall ads,
     generateAdsForKit kit count = Ok ads ->
     Forall (fun a => color a = VStr "#0052cc") ads) /\
  (forall brand s,
     brandName kit = Ok brand ->
     ToString brand = Ok s ->
     exists ads,
       generateAdsForKit kit count = Ok ads /\
       length ads = Z.to_nat count /\
       Forall (fun a => color a = VStr "#0052cc") ads).
Proof.
  intros Hcolors Harr.
  assert (Hp : primaryColour kit = Ok (VStr "#0052cc")).
  { unfold primaryColour. rewrite Hcolors. cbn [bind].
    destruct colors as [| | | | |[|c rest]|]; try reflexivity. discriminate. }
  split; [exact Hp|]. split.
  - intros ads. now apply generateAdsForKit_colour.
  - intros brand s Hb Hs.
    destruct (generateAdsForKit_ok kit brand _ s count Hb Hs Hp)
      as (ads & Hrun & Hlen & Hcol & _).
    eauto.
Qed.

(** ** The [/generate-ads] handler *)

Section Handlers.

Variable env : process_env.

(** The request is built exactly when the domain prints. *)
Lemma kit_request_printed (domain : option qvalue) (rq : request) :
  kit_request env domain = Ok rq <->
  exists d,
    query_toString domain = Ok d /\
    rq = mkRequest (BRAND_PROXY_BASE env ++ "?domain=" ++ encodeURIComponent d)%string [].
Proof.
  unfold kit_request, fetchBrandKit_url.
  destruct (query_toString domain) as [d|e]; cbn [bind]; split.
  - intros [= <-]. eauto.
  - intros (d' & [= <-] & ->). reflexivity.
  - discriminate.
  - intros (d' & Hd & _). discriminate.
Qed.

(** The count is read when it prints. *)
Lemma parse_count_printed (count : option qvalue) (text : string) :
  query_toString count = Ok text ->
  parse_count count =
    Ok (match parseInt text with
        | NaN => Finite 3
        | Finite n => if n =? 0 then Finite 3 else Finite n
        | Infinity negative => Infinity negative
        end).
Proof. intros Ht. unfold parse_count. now rewrite Ht. Qed.

(** The handler throws what printing the count throws, and does nothing
    else. *)
Lemma run_generate_ads_thrown (req : express_request) (net : network number)
    (e : exn) :
  query_toString (lookup "count" (query req)) = Throw e ->
  run net (generate_ads env req) = ([], Thrown e).
Proof.
  intros Hc. unfold generate_ads, parse_count. now rewrite Hc.
Qed.

(** The handler without a truthy domain. *)
Lemma run_generate_ads_falsy (req : express_request) (net : network number)
    (c : double_int) :
  parse_count (lookup "count" (query req)) = Ok c ->
  qtruthy (lookup "domain" (query req)) = false ->
  run net (generate_ads env req) =
    ([], Sent (mkResponse 400
                 (ErrorBody "Missing required query parameter: domain"))).
Proof.
  intros Hc Hd. unfold generate_ads. now rewrite Hc, Hd.
Qed.

(** The handler with a truthy domain that does not print: building the URL
    throws inside the [try], before any fetch. *)
Lemma run_generate_ads_unprintable (req : express_request)
    (net : network number) (c : double_int) (e : exn) :
  parse_count (lookup "count" (query req)) = Ok c ->
  qtruthy (lookup "domain" (query req)) = true ->
  query_toString (lookup "domain" (query req)) = Throw e ->
  run net (generate_ads env req) =
    ([Logged e], Sent (mkResponse 500 (ErrorBody (message e)))).
Proof.
  intros Hc Hd Hp. unfold generate_ads. rewrite Hc, Hd. cbn [negb].
  unfold fetchBrandKit, fetchBrandKit_url. rewrite Hp. reflexivity.
Qed.

(** The handler when the fetch rejects. *)
Lemma run_generate_ads_rejected (req : express_request) (net : network number)
    (c : double_int) (rq : request) (e : exn) :
  parse_count (lookup "count" (query req)) = Ok c ->
  qtruthy (lookup "domain" (query req)) = true ->
  kit_request env (lookup "domain" (query req)) = Ok rq ->
  net rq = Rejected e ->
  run net (generate_ads env req) =
    ([Fetched rq; Logged e], Sent (mkResponse 500 (ErrorBody (message e)))).
Proof.
  intros Hc Hd Hrq Hnet. apply kit_request_printed in Hrq as (d & Hp & ->).
  unfold generate_ads. rewrite Hc, Hd. cbn [negb].
  unfold fetchBrandKit, fetchBrandKit_url. rewrite Hp. cbn [bind io_bind run].
  rewrite Hnet. reflexivity.
Qed.

(** The handler when the proxy answers with a status outside 200-299. *)
Lemma run_generate_ads_not_ok (req : express_request) (net : network number)
    (c : double_int) (rq : request) (res : fetch_response number) :
  parse_count (lookup "count" (query req)) = Ok c ->
  qtruthy (lookup "domain" (query req)) = true ->
  kit_request env (lookup "domain" (query req)) = Ok rq ->
  net rq = Resolved res ->
  ok res = false ->
  exists d,
    query_toString (lookup "domain" (query req)) = Ok d /\
    let msg := ("Failed to fetch brand kit for " ++ d ++ ": "
                ++ string_of_Z (status res) ++ " " ++ statusText res)%string in
    run net (generate_ads env req) =
      ([Fetched rq; Logged (mkExn Error msg)],
       Sent (mkResponse 500 (ErrorBody msg))).
Proof.
  intros Hc Hd Hrq Hnet Hok. apply kit_request_printed in Hrq as (d & Hp & ->).
  exists d. split; [exact Hp|]. intros msg.
  unfold generate_ads. rewrite Hc, Hd. cbn [negb].
  unfold fetchBrandKit, fetchBrandKit_url. rewrite Hp. cbn [bind io_bind run].
  rewrite Hnet, Hok. reflexivity.
Qed.

(** The handler when the body of a successful answer does not parse. *)
Lemma run_generate_ads_unparsed (req : express_request) (net : network number)
    (c : double_int) (rq : request) (res : fetch_response number) (e : exn) :
  parse_count (lookup "count" (query req)) = Ok c ->
  qtruthy (lookup "domain" (query req)) = true ->
  kit_request env (lookup "domain" (query req)) = Ok rq ->
  net rq = Resolved res ->
  ok res = true ->
  json res = Throw e ->
  run net (generate_ads env req) =
    ([Fetched rq; Logged e], Sent (mkResponse 500 (ErrorBody (message e)))).
Proof.
  intros Hc Hd Hrq Hnet Hok Hjson.
  apply kit_request_printed in Hrq as (d & Hp & ->).
  unfold generate_ads. rewrite Hc, Hd. cbn [negb].
  unfold fetchBrandKit, fetchBrandKit_url. rewrite Hp. cbn [bind io_bind run].
  rewrite Hnet, Hok. cbn [negb io_bind]. rewrite Hjson. reflexivity.
Qed.

(** The handler after a successful fetch: it answers with the ads, or logs
    and reports what [generateAdsForKit] threw. *)
Lemma run_generate_ads_fetched (req : express_request) (net : network number)
    (c : double_int) (rq : request) (res : fetch_response number)
    (kit : value) :
  parse_count (lookup "count" (query req)) = Ok c ->
  qtruthy (lookup "domain" (query req)) = true ->
  kit_request env (lookup "domain" (query req)) = Ok rq ->
  net rq = Resolved res ->
  ok res = true ->
  json res = Ok kit ->
  run net (generate_ads env req) =
  match generateAdsForKit_number kit c with
  | Ok ads =>
      ([Fetched rq],
       Sent (mkResponse 200 (AdsBody (lookup "domain" (query req)) ads)))
  | Throw err =>
      ([Fetched rq; Logged err],
       Sent (mkResponse 500 (ErrorBody (message err))))
  end.
Proof.
  intros Hc Hd Hrq Hnet Hok Hjson.
  apply kit_request_printed in Hrq as (d & Hp & ->).
  unfold generate_ads. rewrite Hc, Hd. cbn [negb].
  unfold fetchBrandKit, fetchBrandKit_url. rewrite Hp. cbn [bind io_bind run].
  rewrite Hnet, Hok. cbn [negb io_bind]. rewrite Hjson.
  destruct (generateAdsForKit_number kit c) as [ads|err]; reflexivity.
Qed.

(** A run that fetches has read the count and built the request from a
    truthy domain. *)
Lemma run_generate_ads_fetch_inv (req : express_request)
    (net : network number) (rq : request) :
  In (Fetched rq) (fst (run net (generate_ads env req))) ->
  exists c,
    parse_count (lookup "count" (query req)) = Ok c /\
    qtruthy (lookup "domain" (query req)) = true /\
    kit_request env (lookup "domain" (query req)) = Ok rq.
Proof.
  intros Hin.
  destruct (query_toString (lookup "count" (query req))) as [text|e] eqn:Ht;
    [|rewrite (run_generate_ads_thrown req net e Ht) in Hin; contradiction].
  pose proof (parse_count_printed _ _ Ht) as Hc.
  destruct (qtruthy (lookup "domain" (query req))) eqn:Hd;
    [|rewrite (run_generate_ads_falsy req net _ Hc Hd) in Hin; contradiction].
  destruct (query_toString (lookup "domain" (query req))) as [d|e] eqn:Hp.
  - assert (Hrq : kit_request env (lookup "domain" (query req)) =
                  Ok (mkRequest (BRAND_PROXY_BASE env ++ "?domain="
                                 ++ encodeURIComponent d)%string []))
      by (apply kit_request_printed; eauto).
    eexists. split; [exact Hc|]. split; [reflexivity|].
    rewrite Hrq. f_equal.
    destruct (net (mkRequest (BRAND_PROXY_BASE env ++ "?domain="
                              ++ encodeURIComponent d)%string []))
      as [e|res] eqn:Hnet.
    + rewrite (run_generate_ads_rejected req net _ _ e Hc Hd Hrq Hnet) in Hin.
      destruct Hin as [[= <-] | [Hin | []]]; [reflexivity | discriminate].
    + destruct (ok res) eqn:Hok.
      * destruct (json res) as [kit|e] eqn:Hjson.
        -- rewrite (run_generate_ads_fetched req net _ _ res kit
                      Hc Hd Hrq Hnet Hok Hjson) in Hin.
           destruct (generateAdsForKit_number kit _) as [ads|err];
             cbn [fst In] in Hin; intuition (try discriminate); congruence.
        -- rewrite (run_generate_ads_unparsed req net _ _ res e
                      Hc Hd Hrq Hnet Hok Hjson) in Hin.
           cbn [fst In] in Hin; intuition (try discriminate); congruence.
      * destruct (run_generate_ads_not_ok req net _ _ res Hc Hd Hrq Hnet Hok)
          as (d' & _ & Hrun).
        cbv zeta in Hrun. rewrite Hrun in Hin.
        cbn [fst In] in Hin; intuition (try discriminate); congruence.
  - rewrite (run_generate_ads_unprintable req net _ e Hc Hd Hp) in Hin.
    cbn [fst In] in Hin. intuition discriminate.
Qed.

(** The call for a count of ads that an array can hold. *)
Lemma generateAdsForKit_number_finite (kit : value) (n : Z) :
  n <= 2 ^ 32 - 1 ->
  generateAdsForKit_number kit (Finite n) = generateAdsForKit kit n.
Proof.
  intros Hn. unfold generateAdsForKit_number.
  now rewrite (proj2 (Z.leb_le n (2 ^ 32 - 1)) Hn).
Qed.

(** C1, as amended: for a request with a valid domain (truthy, and printable
    so that the request to the proxy is built), a brand kit fetched with a
    successful status, whose name resolves to a brand that prints and whose
    colour resolves, and a count that parses to a positive integer [n] of at
    most 2^32 - 1 (the largest length of an array), the response is 200 with
    exactly [n] ads, and the ad at each
    index [i] below [n] is the output of template [i mod 10] on the resolved
    brand name (with the primary colour attached). *)
Theorem generate_ads_positive_count (req : express_request)
    (net : network number) (rq : request) (res : fetch_response number)
    (kit brand colour : value) (s text : string) (n : Z) :
  qtruthy (lookup "domain" (query req)) = true ->
  kit_request env (lookup "domain" (query req)) = Ok rq ->
  net rq = Resolved res ->
  ok res = true ->
  json res = Ok kit ->
  query_toString (lookup "count" (query req)) = Ok text ->
  parseInt text = Finite n ->
  0 < n ->
  n <= 2 ^ 32 - 1 ->
  brandName kit = Ok brand ->
  ToString brand = Ok s ->
  primaryColour kit = Ok colour ->
  exists ads,
    run net (generate_ads env req) =
      ([Fetched rq],
       Sent (mkResponse 200 (AdsBody (lookup "domain" (query req)) ads))) /\
    Z.of_nat (length ads) = n /\
    forall i, 0 <= i < n ->
      exists (t : template) c,
        nth_error templates (Z.to_nat (i mod 10)) = Some t /\
        t brand = Ok c /\
        nth_error ads (Z.to_nat i) =
          Some (mkAd (creative_headline c) (creative_text c) (creative_cta c)
                     colour).
Proof.
  intros Hd Hrq Hnet Hok Hjson Ht Hn Hpos Hmax Hb Hs Hc.
  pose proof (parse_count_printed _ _ Ht) as Hcount. rewrite Hn in Hcount.
  destruct (n =? 0) eqn:Hz; [apply Z.eqb_eq in Hz; lia|].
  rewrite (run_generate_ads_fetched req net _ rq res kit
             Hcount Hd Hrq Hnet Hok Hjson).
  rewrite (generateAdsForKit_number_finite kit n Hmax).
  destruct (generateAdsForKit_ok kit brand colour s n Hb Hs Hc)
    as (ads & -> & Hlen & _ & Hnth).
  exists ads. split; [reflexivity|]. split; [lia|].
  intros i Hi. destruct (Hnth (Z.to_nat i) ltac:(lia)) as (t & c & Ht' & Hc' & Hi').
  exists t, c. rewrite Z2Nat.id in Ht' by lia. auto.
Qed.



(** C10, as amended: for a request with a valid domain and a brand kit
    fetched with a successful status whose name and colour resolve: a count
    that parses to 0 gives exactly 3 ads (when the brand prints), and a
    count that parses to a negative integer gives status 200 with no ads. *)
Theorem generate_ads_zero_or_negative_count (req : express_request)
    (net : network number) (rq : request) (res : fetch_response number)
    (kit brand colour : value) (text : string) (n : Z) :
  qtruthy (lookup "domain" (query req)) = true ->
  kit_request env (lookup "domain" (query req)) = Ok rq ->
  net rq = Resolved res ->
  ok res = true ->
  json res = Ok kit ->
  query_toString (lookup "count" (query req)) = Ok text ->
  parseInt text = Finite n ->
  brandName kit = Ok brand ->
  primaryColour kit = Ok colour ->
  (n = 0 ->
   forall s, ToString brand = Ok s ->
   exists ads,
     snd (run net (generate_ads env req)) =
       Sent (mkResponse 200 (AdsBody (lookup "domain" (query req)) ads)) /\
     length ads = 3%nat) /\
  (n < 0 ->
   snd (run net (generate_ads env req)) =
     Sent (mkResponse 200 (AdsBody (lookup "domain" (query req)) []))).
Proof.
  intros Hd Hrq Hnet Hok Hjson Ht Hn Hb Hc.
  pose proof (parse_count_printed _ _ Ht) as Hcount. rewrite Hn in Hcount.
  rewrite (run_generate_ads_fetched req net _ rq res kit
             Hcount Hd Hrq Hnet Hok Hjson).
  split.
  - intros -> s Hs. cbn [Z.eqb].
    rewrite (generateAdsForKit_number_finite kit 3) by lia.
    destruct (generateAdsForKit_ok kit brand colour s 3 Hb Hs Hc)
      as (ads & -> & Hlen & _).
    exists ads. split; [reflexivity | exact Hlen].
  - intros Hneg. destruct (n =? 0) eqn:Hz; [apply Z.eqb_eq in Hz; lia|].
    rewrite (generateAdsForKit_number_finite kit n) by lia.
    now rewrite (generateAdsForKit_nonpositive kit brand colour n Hb Hc) by lia.
Qed.

(** The generator's first effect, for a request with a count that prints and
    a truthy domain that prints, is the fetch of the brand kit. *)
Lemma run_generate_ads_fetches (req : express_request) (net : network number)
    (c : double_int) (rq : request) :
  parse_count (lookup "count" (query req)) = Ok c ->
  qtruthy (lookup "domain" (query req)) = true ->
  kit_request env (lookup "domain" (query req)) = Ok rq ->
  exists rest, fst (run net (generate_ads env req)) = Fetched rq :: rest.
Proof.
  intros Hc Hd Hrq. pose proof Hrq as Hrq'.
  apply kit_request_printed in Hrq' as (d & Hp & ->).
  unfold generate_ads. rewrite Hc, Hd. cbn [negb].
  unfold fetchBrandKit, fetchBrandKit_url. rewrite Hp. cbn [bind io_bind run].
  destruct (run net _) as [trace a]. cbn [fst]. eauto.
Qed.

(** [encodeURIComponent] leaves a string of unreserved characters as it is. *)
Lemma encodeURIComponent_unreserved (s : string) :
  string_forallb uri_unreserved s = true -> encodeURIComponent s = s.
Proof.
  induction s as [|c s IH]; cbn [string_forallb encodeURIComponent];
    [reflexivity|].
  intros Hall. apply andb_prop in Hall as [Hc Hs]. rewrite Hc. now rewrite IH.
Qed.

(** [encodeURIComponent] never shortens. *)
Lemma encodeURIComponent_length (s : string) :
  (String.length s <= String.length (encodeURIComponent s))%nat.
Proof.
  induction s as [|c s IH]; cbn [encodeURIComponent String.length]; [lia|].
  destruct (uri_unreserved c); cbn [String.length]; lia.
Qed.

(** [encodeURIComponent] changes every string that holds a character outside
    the unreserved set: such a character becomes three. *)
Lemma encodeURIComponent_fixed (s : string) :
  encodeURIComponent s = s -> string_forallb uri_unreserved s = true.
Proof.
  induction s as [|c s IH]; cbn [string_forallb encodeURIComponent];
    [reflexivity|].
  destruct (uri_unreserved c) eqn:Hc.
  - intros [= Hs]. now rewrite IH.
  - intros Heq. apply (f_equal String.length) in Heq.
    cbn [String.length] in Heq. pose proof (encodeURIComponent_length s). lia.
Qed.

(** ** The [/brandkit] handler *)

(** The proxy makes exactly one fetch when the domain prints, whatever comes
    back. *)
Lemma run_brandkit_fetches (req : express_request) (net : network number)
    (url : string) :
  brandkit_url (lookup "domain" (query req)) = Ok url ->
  fst (run net (brandkit env req)) =
    [Fetched (mkRequest url
                [("Authorization", "Bearer " ++ API_KEY_text env)%string])].
Proof.
  intros Hurl. unfold brandkit. rewrite Hurl. cbn [run].
  destruct (net _) as [e|res]; [|destruct (json res)]; reflexivity.
Qed.

(** C8: when the domain prints the proxy makes one fetch; it answers 200 with
    the upstream JSON as it is when the fetch resolves and the body parses,
    and 500 with [{error: message}] when the fetch rejects or the body does
    not parse.  When the domain does not print, the template literal throws
    inside the [try]: no fetch, and 500 with that error's message.  There is
    no other answer. *)
Theorem brandkit_relays (req : express_request) (net : network number) :
  let domain := lookup "domain" (query req) in
  let answer := snd (run net (brandkit env req)) in
  (forall e,
     brandkit_url domain = Throw e ->
     run net (brandkit env req) =
       ([], mkResponse 500 (ErrorBody (message e)))) /\
  (forall url,
     brandkit_url domain = Ok url ->
     let rq := mkRequest url
                 [("Authorization", "Bearer " ++ API_KEY_text env)%string] in
     fst (run net (brandkit env req)) = [Fetched rq] /\
     (forall res data,
        net rq = Resolved res -> json res = Ok data ->
        answer = mkResponse 200 (JsonBody data)) /\
     (forall e,
        net rq = Rejected e ->
        answer = mkResponse 500 (ErrorBody (message e))) /\
     (forall res e,
        net rq = Resolved res -> json res = Throw e ->
        answer = mkResponse 500 (ErrorBody (message e)))) /\
  ((exists data, answer = mkResponse 200 (JsonBody data)) \/
   (exists msg, answer = mkResponse 500 (ErrorBody msg))).
Proof.
  intros domain answer. subst domain answer. unfold brandkit.
  destruct (brandkit_url (lookup "domain" (query req))) as [url|e0] eqn:Hurl.
  - split; [discriminate|]. cbn [run].
    set (rq := mkRequest url _).
    destruct (net rq) as [e|res] eqn:Hnet;
      [|destruct (json res) as [data|e] eqn:Hjson];
      cbn [run fst snd]; (split; [|right + left; eauto]);
      intros url' [= <-]; cbv zeta; fold rq; rewrite Hnet; cbn [run fst snd];
      (split; [reflexivity|]); (split; [|split]).
    + discriminate.
    + intros e' [= <-]. reflexivity.
    + discriminate.
    + intros res' data' [= <-]. rewrite Hjson. now intros [= <-].
    + discriminate.
    + intros res' e' [= <-]. rewrite Hjson. discriminate.
    + intros res' data' [= <-]. rewrite Hjson. discriminate.
    + discriminate.
    + intros res' e' [= <-]. rewrite Hjson. now intros [= <-].
  - cbn [run fst snd]. split; [|split].
    + intros e [= <-]. reflexivity.
    + discriminate.
    + right. eauto.
Qed.

(** C9, as amended: the proxy interpolates the domain string as it is into
    the upstream URL; the generator, once the count is read, interpolates
    [encodeURIComponent(domain)], which is the domain unchanged exactly when
    every character of it is unreserved (letters, digits and
    [- _ . ! ~ * ' ( )]), and otherwise differs from it. *)
Theorem outbound_urls (req : express_request) (net : network number)
    (d : string) :
  lookup "domain" (query req) = Some (QStr d) ->
  fst (run net (brandkit env req)) =
    [Fetched (mkRequest ("https://api.brandfetch.io/v2/brands/" ++ d)%string
                [("Authorization", "Bearer " ++ API_KEY_text env)%string])] /\
  (d <> ""%string ->
   forall c,
     parse_count (lookup "count" (query req)) = Ok c ->
     exists rest,
       fst (run net (generate_ads env req)) =
         Fetched (mkRequest (BRAND_PROXY_BASE env ++ "?domain="
                             ++ encodeURIComponent d)%string []) :: rest) /\
  (encodeURIComponent d = d <-> string_forallb uri_unreserved d = true).
Proof.
  intros Hd. split; [|split].
  - apply run_brandkit_fetches. unfold brandkit_url. now rewrite Hd.
  - intros Hne c Hc.
    assert (Ht : qtruthy (lookup "domain" (query req)) = true).
    { rewrite Hd. cbn. destruct (String.eqb_spec d ""); [contradiction | reflexivity]. }
    apply (run_generate_ads_fetches req net c _ Hc Ht).
    apply kit_request_printed. exists d. split; [now rewrite Hd | reflexivity].
  - split; [apply encodeURIComponent_fixed | apply encodeURIComponent_unreserved].
Qed.

End Handlers.

(** ** Determinism *)

(** C7: two runs of the generator, under any two environments and networks,
    on the same request and with the same brand kit fetched, give the same
    response, hence the same ads; and [generateAdsForKit] depends on the kit
    only through the resolved name and colour. *)
Theorem generate_ads_deterministic (env1 env2 : process_env)
    (net1 net2 : network number) (req : express_request)
    (res1 res2 : fetch_response number) (kit : value) :
  qtruthy (lookup "domain" (query req)) = true ->
  (forall rq, kit_request env1 (lookup "domain" (query req)) = Ok rq ->
              net1 rq = Resolved res1) ->
  (forall rq, kit_request env2 (lookup "domain" (query req)) = Ok rq ->
              net2 rq = Resolved res2) ->
  ok res1 = true ->
  ok res2 = true ->
  json res1 = Ok kit ->
  json res2 = Ok kit ->
  snd (run net1 (generate_ads env1 req)) =
  snd (run net2 (generate_ads env2 req)) /\
  forall kit' count,
    brandName kit' = brandName kit ->
    primaryColour kit' = primaryColour kit ->
    generateAdsForKit kit' count = generateAdsForKit kit count.
Proof.
  intros Hd Hnet1 Hnet2 Hok1 Hok2 Hjson1 Hjson2. split.
  - destruct (query_toString (lookup "count" (query req))) as [text|e] eqn:Ht;
      [|now rewrite !(run_generate_ads_thrown _ req _ e Ht)].
    pose proof (parse_count_printed _ _ Ht) as Hc.
    destruct (query_toString (lookup "domain" (query req))) as [d|e] eqn:Hp;
      [|now rewrite !(run_generate_ads_unprintable _ req _ _ e Hc Hd Hp)].
    assert (Hrq : forall env, kit_request env (lookup "domain" (query req)) =
              Ok (mkRequest (BRAND_PROXY_BASE env ++ "?domain="
                             ++ encodeURIComponent d)%string []))
      by (intros env; apply kit_request_printed; eauto).
    rewrite (run_generate_ads_fetched env1 req net1 _ _ res1 kit
               Hc Hd (Hrq env1) (Hnet1 _ (Hrq env1)) Hok1 Hjson1).
    rewrite (run_generate_ads_fetched env2 req net2 _ _ res2 kit
               Hc Hd (Hrq env2) (Hnet2 _ (Hrq env2)) Hok2 Hjson2).
    destruct (generateAdsForKit_number kit _) as [ads|err]; reflexivity.
  - intros kit' count Hb Hc. unfold generateAdsForKit. now rewrite Hb, Hc.
Qed.

End Properties.

(** * The properties on the sample inputs *)

Local Open Scope list_scope.

(** The request the generator sends for [domain=acme.com] when
    [BRANDFETCH_URL] is unset. *)
Lemma kit_request_acme :
  kit_request env0 (Some (QStr "acme.com")) =
    Ok (mkRequest
          "https://render-project-cx98.onrender.com/brandkit?domain=acme.com" []).
Proof. reflexivity. Qed.

(** C1 at [count=12]: twelve ads, cycling through the ten templates. *)
Lemma generate_ads_positive_count_witness :
  exists ads,
    run (net_always res_acme) (generate_ads env0 req_acme_12) =
      ([Fetched (mkRequest
          "https://render-project-cx98.onrender.com/brandkit?domain=acme.com"
          [])],
       Sent (mkResponse 200 (AdsBody (Some (QStr "acme.com")) ads))) /\
    Z.of_nat (length ads) = 12 /\
    forall i, 0 <= i < 12 ->
      exists (t : template int53) c,
        nth_error templates (Z.to_nat (i mod 10)) = Some t /\
        t (VStr "Acme") = Ok c /\
        nth_error ads (Z.to_nat i) =
          Some (mkAd (creative_headline c) (creative_text c) (creative_cta c)
                     (VStr "#abc123")).
Proof.
  apply (generate_ads_positive_count env0 req_acme_12 (net_always res_acme)
           _ res_acme kit_acme (VStr "Acme") (VStr "#abc123") "Acme" "12" 12);
    try reflexivity.
  vm_compute. discriminate.
Defined.

(** C1 fails as stated at [count=0]: the count parses to the integer 0 and
    the response has three ads, not zero. *)
Lemma generate_ads_count_zero_counterexample :
  qtruthy (lookup "domain" (query req_acme_0)) = true /\
  ok res_acme = true /\
  parseInt "0" = Finite 0 /\
  exists ads,
    snd (run (net_always res_acme) (generate_ads env0 req_acme_0)) =
      Sent (mkResponse 200 (AdsBody (Some (QStr "acme.com")) ads)) /\
    length ads = 3%nat /\
    Z.of_nat (length ads) <> 0.
Proof.
  repeat split. eexists. split; [vm_compute; reflexivity|].
  split; [reflexivity | discriminate].
Qed.


(** C3 at colors [[{hex: null}, {hex: "#abc123"}]]. *)
Lemma primary_colour_first_truthy_hex_witness :
  exists ads,
    generateAdsForKit kit_acme 2 = Ok ads /\
    length ads = 2%nat /\
    Forall (fun a => color a = VStr "#abc123") ads.
Proof.
  destruct (primary_colour_first_truthy_hex kit_acme
              [VObj [("hex", VNull)]] [] (VObj [("hex", VStr "#abc123")])
              (VStr "#abc123") 2) as [_ Hads].
  - reflexivity.
  - constructor; [intros h [= <-]; reflexivity | constructor].
  - reflexivity.
  - reflexivity.
  - apply (Hads ltac:(repeat constructor; eexists; reflexivity)
             (VStr "Acme") "Acme"); reflexivity.
Defined.

(** C4 at a kit without colors. *)
Lemma primary_colour_default_witness :
  primaryColour kit_name = Ok (VStr "#0052cc") /\
  exists ads,
    generateAdsForKit kit_name 3 = Ok ads /\
    length ads = 3%nat /\
    Forall (fun a => color a = VStr "#0052cc") ads.
Proof.
  destruct (primary_colour_default kit_name VUndefined 3 eq_refl eq_refl)
    as (Hp & _ & Hads).
  split; [exact Hp|].
  apply (Hads (VStr "Acme") "Acme"); reflexivity.
Defined.



(** C6 at the three kits of the specification. *)
Lemma brandName_resolution_witness :
  brandName kit_name = Ok (VStr "Acme") /\
  brandName kit_domain = Ok (VStr "acme.com") /\
  brandName kit_empty = Ok (VStr "Your brand").
Proof.
  split; [|split].
  - exact (proj1 (brandName_resolution kit_name (VStr "Acme") VUndefined
                    eq_refl eq_refl)).
  - exact (proj1 (brandName_resolution kit_domain VUndefined (VStr "acme.com")
                    eq_refl eq_refl)).
  - exact (proj1 (brandName_resolution kit_empty VUndefined VUndefined
                    eq_refl eq_refl)).
Defined.

(** C6 fails as stated at [{name: "", domain: "acme.com"}]: the name is
    present, and the brand name is the domain. *)
Lemma brandName_empty_name_counterexample :
  get kit_empty_name "name" = Ok (VStr "") /\
  brandName kit_empty_name = Ok (VStr "acme.com") /\
  brandName kit_empty_name <> Ok (VStr "").
Proof.
  split; [reflexivity|]. split; [reflexivity | discriminate].
Qed.

(** C7 at two environments. *)
Lemma generate_ads_deterministic_witness :
  snd (run (net_always res_acme) (generate_ads env0 req_acme_12)) =
  snd (run (net_always res_acme) (generate_ads env_local req_acme_12)).
Proof.
  exact (proj1 (generate_ads_deterministic env0 env_local
                  (net_always res_acme) (net_always res_acme) req_acme_12
                  res_acme res_acme kit_acme
                  eq_refl (fun _ _ => eq_refl) (fun _ _ => eq_refl)
                  eq_refl eq_refl eq_refl eq_refl)).
Defined.

(** C8 at an upstream that answers with a brand kit, at one whose body is
    not JSON, and at a domain that does not print. *)
Lemma brandkit_relays_witness :
  snd (run (net_always res_acme) (brandkit env0 req_slash)) =
    mkResponse 200 (JsonBody kit_acme) /\
  snd (run (net_always (mkFetchResponse 502 "Bad Gateway"
                          (Throw (mkExn SyntaxError "Unexpected token <"))))
           (brandkit env0 req_slash)) =
    mkResponse 500 (ErrorBody "Unexpected token <") /\
  run (net_always res_acme) (brandkit env0 req_domain_object) =
    ([], mkResponse 500 (ErrorBody "Cannot convert object to primitive value")).
Proof.
  split; [|split].
  - destruct (brandkit_relays env0 req_slash (net_always res_acme))
      as (_ & Hfetch & _).
    destruct (Hfetch _ eq_refl) as (_ & Hok & _).
    exact (Hok res_acme kit_acme eq_refl eq_refl).
  - destruct (brandkit_relays env0 req_slash
                (net_always (mkFetchResponse 502 "Bad Gateway"
                               (Throw (mkExn SyntaxError "Unexpected token <")))))
      as (_ & Hfetch & _).
    destruct (Hfetch _ eq_refl) as (_ & _ & _ & Herr).
    exact (Herr _ _ eq_refl eq_refl).
  - destruct (brandkit_relays env0 req_domain_object (net_always res_acme))
      as (Hthrow & _).
    exact (Hthrow _ eq_refl).
Defined.

(** C9 at the domain [a/b]. *)
Lemma outbound_urls_witness :
  fst (run (net_always res_acme) (brandkit env0 req_slash)) =
    [Fetched (mkRequest "https://api.brandfetch.io/v2/brands/a/b"
                [("Authorization", "Bearer undefined")])] /\
  (exists rest,
     fst (run (net_always res_acme) (generate_ads env0 req_slash)) =
       Fetched (mkRequest
                  "https://render-project-cx98.onrender.com/brandkit?domain=a%2Fb"
                  []) :: rest) /\
  (encodeURIComponent "a/b" = "a/b"%string <->
   string_forallb uri_unreserved "a/b" = true).
Proof.
  destruct (outbound_urls env0 req_slash (net_always res_acme) "a/b" eq_refl)
    as (Hproxy & Hgen & Hfix).
  split; [exact Hproxy|]. split; [|exact Hfix].
  apply (Hgen ltac:(discriminate) (Finite 3)). reflexivity.
Defined.

(** C9 fails as stated at the domain [a/b]: the generator's URL is not the
    base followed by the domain as it is. *)
Lemma generate_ads_encodes_domain_counterexample :
  lookup "domain" (query req_slash) = Some (QStr "a/b") /\
  fst (run (net_always res_acme) (generate_ads env0 req_slash)) =
    [Fetched (mkRequest
                "https://render-project-cx98.onrender.com/brandkit?domain=a%2Fb"
                [])] /\
  fetchBrandKit_url env0 (Some (QStr "a/b")) <>
    Ok (BRAND_PROXY_BASE env0 ++ "?domain=" ++ "a/b")%string.
Proof.
  split; [reflexivity|]. split; [reflexivity | discriminate].
Qed.

(** C10 at [count=0] and [count=-2]. *)
Lemma generate_ads_zero_or_negative_count_witness :
  (exists ads,
     snd (run (net_always res_acme) (generate_ads env0 req_acme_0)) =
       Sent (mkResponse 200 (AdsBody (Some (QStr "acme.com")) ads)) /\
     length ads = 3%nat) /\
  snd (run (net_always res_acme) (generate_ads env0 req_acme_neg)) =
    Sent (mkResponse 200 (AdsBody (Some (QStr "acme.com")) [])).
Proof.
  split.
  - destruct (generate_ads_zero_or_negative_count env0 req_acme_0
                (net_always res_acme) _ res_acme kit_acme (VStr "Acme")
                (VStr "#abc123") "0" 0
                eq_refl kit_request_acme eq_refl eq_refl eq_refl eq_refl
                eq_refl eq_refl eq_refl)
      as [Hzero _].
    exact (Hzero eq_refl "Acme" eq_refl).
  - destruct (generate_ads_zero_or_negative_count env0 req_acme_neg
                (net_always res_acme) _ res_acme kit_acme (VStr "Acme")
                (VStr "#abc123") "-2" (-2)
                eq_refl kit_request_acme eq_refl eq_refl eq_refl eq_refl
                eq_refl eq_refl eq_refl)
      as [_ Hneg].
    exact (Hneg eq_refl).
Defined.

(** C10 fails as stated at a fetched body [null]: the domain is valid, the
    proxy answers 200, the count parses to -2, and the response is 500, not
    200 with no ads. *)
Lemma negative_count_null_body_counterexample :
  qtruthy (lookup "domain" (query req_acme_neg)) = true /\
  ok res_null = true /\
  parseInt "-2" = Finite (-2) /\
  run (net_always res_null) (generate_ads env0 req_acme_neg) =
    ([Fetched (mkRequest
         "https://render-project-cx98.onrender.com/brandkit?domain=acme.com"
         []);
      Logged (mkExn TypeError "Cannot read properties of null (reading 'name')")],
     Sent (mkResponse 500
             (ErrorBody "Cannot read properties of null (reading 'name')"))).
Proof.
  repeat split.
Qed.

(** * Further properties of the handlers *)

Section GeneratorOutcomes.

Context {number : Type} `{JsNumber number}.

Local Abbreviation value := (value number).
Local Abbreviation ad := (ad number).

Variable env : process_env.

(** X1: every run of the generator has one of five shapes.  A count that
    does not print: the handler throws, and nothing is done or sent.
    Otherwise, without a truthy domain: 400 and no effect.  With a truthy
    domain that does not print: one [console.error] and 500, no fetch.
    Otherwise exactly one fetch, of the brand kit, followed by 200 with the
    domain as it was received and the ads, or by one [console.error] of the
    error thrown and 500 with that error's message.  There is no retry and
    no other status. *)
Theorem generate_ads_outcomes (req : express_request) (net : network number) :
  let domain := lookup "domain" (query req) in
  let count := lookup "count" (query req) in
  (exists e,
     query_toString count = Throw e /\
     run net (generate_ads env req) = ([], Thrown e))
  \/
  (exists c,
     parse_count count = Ok c /\
     ((qtruthy domain = false /\
       run net (generate_ads env req) =
         ([], Sent (mkResponse 400
                      (ErrorBody "Missing required query parameter: domain"))))
      \/
      (qtruthy domain = true /\
       exists e,
         query_toString domain = Throw e /\
         run net (generate_ads env req) =
           ([Logged e], Sent (mkResponse 500 (ErrorBody (message e)))))
      \/
      (qtruthy domain = true /\
       exists rq,
         kit_request env domain = Ok rq /\
         ((exists ads,
             run net (generate_ads env req) =
               ([Fetched rq], Sent (mkResponse 200 (AdsBody domain ads))))
          \/
          (exists e,
             run net (generate_ads env req) =
               ([Fetched rq; Logged e],
                Sent (mkResponse 500 (ErrorBody (message e))))))))).
Proof.
  intros domain count. subst domain count.
  destruct (query_toString (lookup "count" (query req))) as [text|e] eqn:Ht;
    [|left; exists e; split;
      [reflexivity | now apply run_generate_ads_thrown]].
  right. pose proof (parse_count_printed _ _ Ht) as Hc.
  eexists. split; [exact Hc|].
  destruct (qtruthy (lookup "domain" (query req))) eqn:Hd;
    [|left; split; [reflexivity | now apply (run_generate_ads_falsy env req net _ Hc)]].
  right.
  destruct (query_toString (lookup "domain" (query req))) as [d|e] eqn:Hp;
    [|left; split; [reflexivity|]; exists e; split;
      [reflexivity | now apply (run_generate_ads_unprintable env req net _ e Hc)]].
  right. split; [reflexivity|].
  assert (Hrq : kit_request env (lookup "domain" (query req)) =
                Ok (mkRequest (BRAND_PROXY_BASE env ++ "?domain="
                               ++ encodeURIComponent d)%string []))
    by (apply kit_request_printed; eauto).
  eexists. split; [exact Hrq|].
  destruct (net (mkRequest (BRAND_PROXY_BASE env ++ "?domain="
                            ++ encodeURIComponent d)%string []))
    as [e|res] eqn:Hnet.
  - right. exists e.
    now apply (run_generate_ads_rejected env req net _ _ e Hc Hd Hrq).
  - destruct (ok res) eqn:Hok.
    + destruct (json res) as [kit|e] eqn:Hjson.
      * rewrite (run_generate_ads_fetched env req net _ _ res kit
                   Hc Hd Hrq Hnet Hok Hjson).
        destruct (generateAdsForKit_number kit _) as [ads|err] eqn:Hgen;
          [left; eauto | right; eauto].
      * right. exists e.
        now apply (run_generate_ads_unparsed env req net _ _ res e Hc Hd Hrq).
    + right.
      destruct (run_generate_ads_not_ok env req net _ _ res Hc Hd Hrq Hnet Hok)
        as (d' & _ & Hrun).
      eexists. exact Hrun.
Qed.

(** X2: when the fetch of the brand kit rejects (no connection, bad URL), or
    resolves with a successful status and a body that is not JSON, the
    generator logs that error and answers 500 with its message. *)
Theorem generate_ads_fetch_failure (req : express_request)
    (net : network number) (rq : request) (e : exn) :
  In (Fetched rq) (fst (run net (generate_ads env req))) ->
  net rq = Rejected e \/
  (exists res, net rq = Resolved res /\ ok res = true /\ json res = Throw e) ->
  run net (generate_ads env req) =
    ([Fetched rq; Logged e], Sent (mkResponse 500 (ErrorBody (message e)))).
Proof.
  intros Hin Hfail.
  destruct (run_generate_ads_fetch_inv env req net rq Hin) as (c & Hc & Hd & Hrq).
  destruct Hfail as [Hnet | (res & Hnet & Hok & Hjson)].
  - now apply (run_generate_ads_rejected env req net c).
  - now apply (run_generate_ads_unparsed env req net c rq res).
Qed.

(** On [null], [generateAdsForKit] throws whatever the count. *)
Lemma generateAdsForKit_number_null (c : double_int) :
  exists e,
    kind e = TypeError /\
    generateAdsForKit_number (VNull : value) c = Throw e.
Proof.
  eexists. split; [|destruct c as [|n|[|]]; unfold generateAdsForKit_number;
                    try destruct (n <=? 2 ^ 32 - 1); reflexivity].
  reflexivity.
Qed.

(** X3: when the fetch of the brand kit is answered with a successful status
    and the JSON body [null], reading [kit.name] throws a TypeError: the
    generator answers 500 whatever the count, a negative one included. *)
Theorem generate_ads_null_kit (req : express_request) (net : network number)
    (rq : request) (res : fetch_response number) :
  In (Fetched rq) (fst (run net (generate_ads env req))) ->
  net rq = Resolved res ->
  ok res = true ->
  json res = Ok VNull ->
  exists e,
    kind e = TypeError /\
    run net (generate_ads env req) =
      ([Fetched rq; Logged e], Sent (mkResponse 500 (ErrorBody (message e)))).
Proof.
  intros Hin Hnet Hok Hjson.
  destruct (run_generate_ads_fetch_inv env req net rq Hin) as (c & Hc & Hd & Hrq).
  rewrite (run_generate_ads_fetched env req net c rq res VNull
             Hc Hd Hrq Hnet Hok Hjson).
  destruct (generateAdsForKit_number_null c) as (e & Hkind & ->).
  exists e. split; [exact Hkind | reflexivity].
Qed.

(** When the call returns ads, the array has held them: there are as many
    as the loop has iterations. *)
Lemma generateAdsForKit_number_length (kit : value) (c : double_int)
    (ads : list ad) :
  generateAdsForKit_number kit c = Ok ads ->
  iterations c = Some (length ads).
Proof.
  unfold generateAdsForKit_number, iterations.
  assert (Hover : (_ <- generateAdsForKit kit 1 ;;
                   Throw (mkExn RangeError "Invalid array length"))
                  <> Ok ads)
    by (destruct (generateAdsForKit kit 1); discriminate).
  destruct c as [|n|[|]]; try (intros Hgen; now contradiction Hover).
  - intros Hgen.
    destruct (generateAdsForKit_inv kit 0 ads Hgen) as (_ & _ & _ & _ & -> & _).
    reflexivity.
  - destruct (n <=? 2 ^ 32 - 1); [|intros Hgen; now contradiction Hover].
    intros Hgen.
    destruct (generateAdsForKit_inv kit n ads Hgen) as (_ & _ & _ & _ & -> & _).
    reflexivity.
  - intros Hgen.
    destruct (generateAdsForKit_inv kit 0 ads Hgen) as (_ & _ & _ & _ & -> & _).
    reflexivity.
Qed.

(** A 200 answer comes from a count and a domain that print, a truthy
    domain, and a call of [generateAdsForKit] that returns. *)
Lemma generate_ads_shape_200 (req : express_request) (net : network number)
    (d : option qvalue) (ads : list ad) :
  snd (run net (generate_ads env req)) = Sent (mkResponse 200 (AdsBody d ads)) ->
  exists text c kit,
    query_toString (lookup "count" (query req)) = Ok text /\
    parse_count (lookup "count" (query req)) = Ok c /\
    qtruthy (lookup "domain" (query req)) = true /\
    d = lookup "domain" (query req) /\
    generateAdsForKit_number kit c = Ok ads.
Proof.
  intros Hrun.
  destruct (query_toString (lookup "count" (query req))) as [text|e] eqn:Ht;
    [|rewrite (run_generate_ads_thrown env req net e Ht) in Hrun; discriminate].
  pose proof (parse_count_printed _ _ Ht) as Hc.
  destruct (qtruthy (lookup "domain" (query req))) eqn:Hd;
    [|rewrite (run_generate_ads_falsy env req net _ Hc Hd) in Hrun; discriminate].
  destruct (query_toString (lookup "domain" (query req))) as [dom|e] eqn:Hp;
    [|rewrite (run_generate_ads_unprintable env req net _ e Hc Hd Hp) in Hrun;
      discriminate].
  assert (Hrq : kit_request env (lookup "domain" (query req)) =
                Ok (mkRequest (BRAND_PROXY_BASE env ++ "?domain="
                               ++ encodeURIComponent dom)%string []))
    by (apply kit_request_printed; eauto).
  destruct (net (mkRequest (BRAND_PROXY_BASE env ++ "?domain="
                            ++ encodeURIComponent dom)%string []))
    as [e|res] eqn:Hnet;
    [rewrite (run_generate_ads_rejected env req net _ _ e Hc Hd Hrq Hnet) in Hrun;
     discriminate|].
  destruct (ok res) eqn:Hok;
    [|destruct (run_generate_ads_not_ok env req net _ _ res Hc Hd Hrq Hnet Hok)
        as (d' & _ & He); cbv zeta in He; rewrite He in Hrun; discriminate].
  destruct (json res) as [kit|e] eqn:Hjson;
    [|rewrite (run_generate_ads_unparsed env req net _ _ res e
                 Hc Hd Hrq Hnet Hok Hjson) in Hrun; discriminate].
  rewrite (run_generate_ads_fetched env req net _ _ res kit
             Hc Hd Hrq Hnet Hok Hjson) in Hrun.
  destruct (generateAdsForKit_number kit _) as [ads'|err] eqn:Hgen;
    [|discriminate].
  cbn [snd] in Hrun. inversion Hrun; subst d ads'.
  eexists text, _, kit. repeat split; [exact Hc | exact Hgen].
Qed.

(** X4: on every 200 answer the body echoes the domain as it was received
    and holds as many ads as the loop has iterations for the count
    [parseInt(req.query.count, 10) || 3], that is [max(0, count)]; the ads
    are empty exactly when the count parameter parses to a negative
    number. *)
Theorem generate_ads_ads_count (req : express_request) (net : network number)
    (d : option qvalue) (ads : list ad) :
  snd (run net (generate_ads env req)) = Sent (mkResponse 200 (AdsBody d ads)) ->
  d = lookup "domain" (query req) /\
  qtruthy d = true /\
  (exists c,
     parse_count (lookup "count" (query req)) = Ok c /\
     iterations c = Some (length ads)) /\
  (ads = [] <->
   exists text,
     query_toString (lookup "count" (query req)) = Ok text /\
     ((exists n, parseInt text = Finite n /\ n < 0) \/
      parseInt text = Infinity true)).
Proof.
  intros Hrun.
  destruct (generate_ads_shape_200 req net d ads Hrun)
    as (text & c & kit & Ht & Hc & Hd & Hdom & Hgen).
  pose proof (generateAdsForKit_number_length kit c ads Hgen) as Hlen.
  subst d. repeat split; eauto.
  - intros ->. exists text. split; [exact Ht|].
    rewrite (parse_count_printed _ _ Ht) in Hc. inversion Hc; subst c; clear Hc.
    unfold iterations in Hlen. cbn [length] in Hlen.
    destruct (parseInt text) as [|n|[|]].
    + vm_compute in Hlen. discriminate.
    + left. exists n. split; [reflexivity|].
      destruct (n =? 0) eqn:Hz; [vm_compute in Hlen; discriminate|].
      apply Z.eqb_neq in Hz.
      destruct (n <=? 2 ^ 32 - 1); [|discriminate].
      inversion Hlen. lia.
    + now right.
    + discriminate.
  - intros (text' & Ht' & Hneg). rewrite Ht in Ht'. inversion Ht'; subst text'.
    rewrite (parse_count_printed _ _ Ht) in Hc. inversion Hc; subst c; clear Hc.
    unfold iterations in Hlen.
    destruct Hneg as [(n & Hn & Hlt) | Hinf]; [rewrite Hn in Hlen | rewrite Hinf in Hlen].
    + destruct (n =? 0) eqn:Hz; [apply Z.eqb_eq in Hz; lia|].
      destruct (n <=? 2 ^ 32 - 1); [|discriminate].
      inversion Hlen as [Hl]. destruct ads; [reflexivity | cbn in Hl; lia].
    + inversion Hlen as [Hl]. destruct ads; [reflexivity | discriminate].
Qed.

(** X5: once the count and the domain are read, and the count is one whose
    ads an array can hold, a kit that is an object whose [name] and [domain]
    are strings when truthy, and whose [colors] array holds no [null], never
    makes the generator fail: the answer is 200 with one ad for each
    iteration. *)
Theorem generate_ads_object_kit (req : express_request) (net : network number)
    (c : double_int) (k : nat) (rq : request) (res : fetch_response number)
    (props : list (string * value)) :
  parse_count (lookup "count" (query req)) = Ok c ->
  iterations c = Some k ->
  qtruthy (lookup "domain" (query req)) = true ->
  kit_request env (lookup "domain" (query req)) = Ok rq ->
  net rq = Resolved res ->
  ok res = true ->
  json res = Ok (VObj props) ->
  (forall v, lookup "name" props = Some v -> truthy v = true ->
             exists s, v = VStr s) ->
  (forall v, lookup "domain" props = Some v -> truthy v = true ->
             exists s, v = VStr s) ->
  (forall entries, lookup "colors" props = Some (VArr entries) ->
                   Forall (fun c => exists h, get c "hex" = Ok h) entries) ->
  exists ads,
    run net (generate_ads env req) =
      ([Fetched rq],
       Sent (mkResponse 200 (AdsBody (lookup "domain" (query req)) ads))) /\
    length ads = k.
Proof.
  intros Hcount Hiter Hd Hrq Hnet Hok Hjson Hname Hdomain Hcolors.
  rewrite (run_generate_ads_fetched env req net c rq res _
             Hcount Hd Hrq Hnet Hok Hjson).
  assert (Hb : exists s, brandName (VObj props) = Ok (VStr s)).
  { unfold brandName. cbn [get].
    destruct (lookup "name" props) as [v|] eqn:Hv; cbn [bind].
    - destruct (truthy v) eqn:Ht.
      + destruct (Hname v eq_refl Ht) as [s ->]. eauto.
      + destruct (lookup "domain" props) as [w|] eqn:Hw; cbn [bind].
        * destruct (truthy w) eqn:Ht'; [|eauto].
          destruct (Hdomain w eq_refl Ht') as [s ->]. eauto.
        * cbn. eauto.
    - cbn [truthy]. destruct (lookup "domain" props) as [w|] eqn:Hw; cbn [bind].
      + destruct (truthy w) eqn:Ht'; [|eauto].
        destruct (Hdomain w eq_refl Ht') as [s ->]. eauto.
      + cbn. eauto. }
  destruct Hb as [s Hb].
  assert (Hc : exists colour, primaryColour (VObj props) = Ok colour).
  { destruct (lookup "colors" props) as [colors|] eqn:Hl.
    - apply (primaryColour_total (VObj props) colors).
      + cbn [get]. now rewrite Hl.
      + intros entries ->. now apply Hcolors.
    - apply (primaryColour_total (VObj props) VUndefined).
      + cbn [get]. now rewrite Hl.
      + discriminate. }
  destruct Hc as [colour Hc].
  assert (Hgen : exists n, k = Z.to_nat n /\
            generateAdsForKit_number (VObj props) c =
              generateAdsForKit (VObj props) n).
  { unfold iterations in Hiter. unfold generateAdsForKit_number.
    destruct c as [|n|[|]]; try discriminate.
    - inversion Hiter. now exists 0.
    - destruct (n <=? 2 ^ 32 - 1); [|discriminate].
      inversion Hiter. now exists n.
    - inversion Hiter. now exists 0. }
  destruct Hgen as (n & -> & ->).
  destruct (generateAdsForKit_ok (VObj props) (VStr s) colour s n Hb eq_refl Hc)
    as (ads & -> & Hlen & _).
  exists ads. split; [reflexivity | exact Hlen].
Qed.

End GeneratorOutcomes.

(** * Further properties of [generateAdsForKit] *)

Section KitProperties.

Context {number : Type} `{JsNumber number}.

Local Abbreviation value := (value number).
Local Abbreviation ad := (ad number).
Local Abbreviation template := (template number).

(** ** The colour scan *)

(** [find] on colours that start with entries of readable, falsy [hex]. *)
Lemma find_hex_skip (before rest : list value) :
  Forall (fun x => exists h, get x "hex" = Ok h /\ truthy h = false) before ->
  find_hex (before ++ rest) = find_hex rest.
Proof.
  induction 1 as [|x before (h & Hx & Hh) _ IH]; [reflexivity|].
  cbn [app find_hex]. rewrite Hx. cbn [bind]. now rewrite Hh.
Qed.

(** X6: a [null] among the colours, before any entry with a truthy [hex],
    makes [generateAdsForKit] throw a TypeError, whatever the count: the
    callback of [find] reads [c.hex] of every entry it reaches. *)
Theorem generateAdsForKit_null_colour (kit : value) (before after : list value)
    (count : Z) :
  get kit "colors" = Ok (VArr (before ++ VNull :: after)) ->
  Forall (fun x => exists h, get x "hex" = Ok h /\ truthy h = false) before ->
  exists e, kind e = TypeError /\ generateAdsForKit kit count = Throw e.
Proof.
  intros Hcolors Hbefore.
  destruct (brandName_total kit _ "colors" Hcolors) as [brand Hb].
  unfold generateAdsForKit. rewrite Hb. cbn [bind].
  unfold primaryColour. rewrite Hcolors. cbn [bind].
  assert (Hne : exists c0 rest, before ++ VNull :: after = c0 :: rest)
    by (destruct before; cbn; eauto).
  destruct Hne as (c0 & rest & Hne). rewrite Hne, <- Hne.
  rewrite (find_hex_skip before (VNull :: after) Hbefore).
  cbn [find_hex get bind]. eexists. split; [|reflexivity]. reflexivity.
Qed.

(** [find] does not look past an entry with a truthy [hex]. *)
Lemma find_hex_stops (before rest : list value) (c hex : value) :
  get c "hex" = Ok hex ->
  truthy hex = true ->
  find_hex (before ++ c :: rest) = find_hex (before ++ [c]).
Proof.
  intros Hc Hhex. induction before as [|x before IH]; cbn [app find_hex].
  - rewrite Hc. cbn [bind]. now rewrite Hhex.
  - destruct (get x "hex") as [h|e]; cbn [bind]; [|reflexivity].
    destruct (truthy h); [reflexivity | exact IH].
Qed.

(** X7: the scan stops at the first entry with a truthy [hex]: what follows
    it, a [null] included, has no influence on the colour. *)
Theorem primaryColour_ignores_tail (kit kit' : value)
    (before after after' : list value) (c hex : value) :
  get kit "colors" = Ok (VArr (before ++ c :: after)) ->
  get kit' "colors" = Ok (VArr (before ++ c :: after')) ->
  get c "hex" = Ok hex ->
  truthy hex = true ->
  primaryColour kit = primaryColour kit'.
Proof.
  intros Hcolors Hcolors' Hc Hhex.
  pose proof (fun rest => find_hex_stops before rest c hex Hc Hhex) as Hfind.
  unfold primaryColour. rewrite Hcolors, Hcolors'. cbn [bind].
  assert (Hne : forall rest, exists c0 rest0, before ++ c :: rest = c0 :: rest0)
    by (intros rest; destruct before; cbn; eauto).
  destruct (Hne after) as (c0 & rest0 & Hne0). rewrite Hne0, <- Hne0.
  destruct (Hne after') as (c1 & rest1 & Hne1). rewrite Hne1, <- Hne1.
  now rewrite (Hfind after), (Hfind after').
Qed.

(** X8: a non-empty colours array in which no entry has a truthy [hex]
    leaves the default colour: every generated ad carries "#0052cc". *)
Theorem primaryColour_no_truthy_hex (kit : value) (entries : list value)
    (count : Z) (ads : list ad) :
  get kit "colors" = Ok (VArr entries) ->
  Forall (fun x => exists h, get x "hex" = Ok h /\ truthy h = false) entries ->
  generateAdsForKit kit count = Ok ads ->
  primaryColour kit = Ok (VStr "#0052cc") /\
  Forall (fun a => color a = VStr "#0052cc") ads.
Proof.
  intros Hcolors Hentries Hgen.
  assert (Hp : primaryColour kit = Ok (VStr "#0052cc")).
  { unfold primaryColour. rewrite Hcolors. cbn [bind].
    destruct entries as [|c rest]; [reflexivity|].
    rewrite <- (app_nil_r (c :: rest)).
    rewrite (find_hex_skip (c :: rest) [] Hentries). reflexivity. }
  split; [exact Hp|]. now apply (generateAdsForKit_colour kit _ count).
Qed.

(** What [find] returns is [undefined] or an entry with a truthy [hex]. *)
Lemma find_hex_found (colors : list value) (accent : value) :
  find_hex colors = Ok accent ->
  accent = VUndefined \/
  In accent colors /\ exists h, get accent "hex" = Ok h /\ truthy h = true.
Proof.
  induction colors as [|c rest IH]; cbn [find_hex].
  - intros [= <-]. now left.
  - destruct (get c "hex") as [h|e] eqn:Hc; cbn [bind]; [|discriminate].
    destruct (truthy h) eqn:Hh.
    + intros [= <-]. right. split; [now left | eauto].
    + intros Hrest. destruct (IH Hrest) as [-> | [Hin Hhex]]; [now left|].
      right. split; [now right | exact Hhex].
Qed.

(** X9: all the ads of one result carry one colour, and that colour is the
    default "#0052cc" or the truthy [hex] of an entry of [kit.colors]: no
    other value of the kit can become the colour. *)
Theorem generateAdsForKit_colour_origin (kit : value) (count : Z)
    (ads : list ad) :
  generateAdsForKit kit count = Ok ads ->
  exists colour,
    Forall (fun a => color a = colour) ads /\
    (colour = VStr "#0052cc" \/
     exists entries c,
       get kit "colors" = Ok (VArr entries) /\ In c entries /\
       get c "hex" = Ok colour /\ truthy colour = true).
Proof.
  intros Hgen.
  destruct (generateAdsForKit_inv kit count ads Hgen)
    as (brand & colour & _ & Hp & _).
  exists colour. split; [now apply (generateAdsForKit_colour kit _ count)|].
  unfold primaryColour in Hp.
  destruct (get kit "colors") as [colors|e] eqn:Hcolors; [|discriminate].
  cbn [bind] in Hp.
  destruct colors as [| | | | |[|c rest]|];
    try (inversion Hp; now left).
  destruct (find_hex (c :: rest)) as [accent|e] eqn:Hfind; [|discriminate].
  cbn [bind] in Hp.
  destruct (find_hex_found _ _ Hfind) as [-> | [Hin (h & Hh & Ht)]].
  - cbn in Hp. inversion Hp. now left.
  - rewrite (truthy_property accent h "hex" Hh Ht), Hh in Hp.
    cbn [bind] in Hp. rewrite Ht in Hp. inversion Hp; subst colour.
    right. exists (c :: rest), accent. auto.
Qed.

(** ** The brand name *)

(** X10: the resolved brand name is always truthy (never an empty string,
    [null] or [undefined]), and it is [kit.name], [kit.domain] or the literal
    "Your brand". *)
Theorem brandName_truthy (kit brand : value) :
  brandName kit = Ok brand ->
  truthy brand = true /\
  (get kit "name" = Ok brand \/ get kit "domain" = Ok brand \/
   brand = VStr "Your brand").
Proof.
  unfold brandName.
  destruct (get kit "name") as [name|e]; cbn [bind]; [|discriminate].
  destruct (truthy name) eqn:Hname.
  - intros [= <-]. auto.
  - destruct (get kit "domain") as [domain|e]; cbn [bind]; [|discriminate].
    destruct (truthy domain) eqn:Hdomain; intros [= <-]; auto.
Qed.

(** ** The templates *)

Lemma contains_middle (before s after : string) :
  contains s (before ++ s ++ after)%string.
Proof. now exists before, after. Qed.

Lemma contains_end (before s : string) : contains s (before ++ s)%string.
Proof.
  exists before, ""%string. f_equal.
  induction s as [|c s IH]; cbn [String.append]; [reflexivity | now rewrite <- IH].
Qed.

Lemma contains_cons (c : ascii) (s t : string) :
  contains s t -> contains s (String c t).
Proof. intros (before & after & ->). now exists (String c before), after. Qed.

(** Every template puts the brand, as printed, in its headline. *)
Lemma template_headline (brand : value) (s : string) (k : nat) (t : template)
    (c : creative) :
  nth_error templates k = Some t ->
  ToString brand = Ok s ->
  t brand = Ok c ->
  contains s (creative_headline c).
Proof.
  intros Hk Hs.
  assert (Hin : In t templates) by (eapply nth_error_In; eauto).
  unfold templates in Hin; simpl in Hin.
  repeat (destruct Hin as [<- | Hin];
          [ unfold template0, template1, template2, template3, template4,
              template5, template6, template7, template8, template9;
            rewrite Hs; cbn [bind]; intros [= <-]; cbn [creative_headline];
            repeat apply contains_cons;
            first [apply (contains_middle "") | apply (contains_end "")] | ]).
  contradiction.
Qed.

(** The call-to-action of the template at each index. *)
Lemma template_cta (brand : value) (k : nat) (t : template) (c : creative) :
  nth_error templates k = Some t ->
  t brand = Ok c ->
  nth_error
    ["REQUEST_DEMO"; "ATTEND"; "APPLY_NOW"; "UNLOCK_FULL_DOCUMENT";
     "LEARN_MORE"; "SIGN_UP"; "DOWNLOAD"; "GET_QUOTE"; "REGISTER"; "JOIN"]%string
    k = Some (creative_cta c).
Proof.
  do 10 (destruct k as [|k];
         [ intros [= <-];
           unfold template0, template1, template2, template3, template4,
             template5, template6, template7, template8, template9;
           destruct (ToString brand); cbn [bind]; intros [= <-]; reflexivity | ]).
  destruct k; discriminate.
Qed.

(** The ten calls-to-action are pairwise distinct. *)
Lemma template_ctas_distinct :
  NoDup
    ["REQUEST_DEMO"; "ATTEND"; "APPLY_NOW"; "UNLOCK_FULL_DOCUMENT";
     "LEARN_MORE"; "SIGN_UP"; "DOWNLOAD"; "GET_QUOTE"; "REGISTER"; "JOIN"]%string.
Proof.
  repeat (constructor; [cbn [In]; intuition discriminate|]). constructor.
Qed.

Lemma to_nat_mod_10 (j : nat) : Z.to_nat (Z.of_nat j mod 10) = (j mod 10)%nat.
Proof.
  change 10 with (Z.of_nat 10). rewrite <- Nat2Z.inj_mod. apply Nat2Z.id.
Qed.

(** X11: the headline of every generated ad contains the brand name as it
    prints. *)
Theorem generateAdsForKit_headline (kit brand : value) (s : string)
    (count : Z) (ads : list ad) :
  generateAdsForKit kit count = Ok ads ->
  brandName kit = Ok brand ->
  ToString brand = Ok s ->
  Forall (fun a => contains s (headline a)) ads.
Proof.
  intros Hgen Hb Hs.
  destruct (generateAdsForKit_inv kit count ads Hgen)
    as (brand' & colour & Hb' & _ & _ & Hnth).
  rewrite Hb in Hb'. inversion Hb'; subst brand'.
  apply Forall_forall. intros a Hin.
  destruct (In_nth_error _ _ Hin) as [j Hj].
  assert (Hlt : (j < length ads)%nat) by (apply nth_error_Some; congruence).
  destruct (Hnth j Hlt) as (t & c & Ht & Hc & Ha).
  rewrite Hj in Ha. inversion Ha. cbn [headline].
  exact (template_headline brand s _ t c Ht Hs Hc).
Qed.

(** X12: the ads cycle with period 10 and not less: two ads of one result
    are equal exactly when their indices agree modulo 10. *)
Theorem generateAdsForKit_period (kit : value) (count : Z) (ads : list ad)
    (i j : nat) :
  generateAdsForKit kit count = Ok ads ->
  (i < length ads)%nat ->
  (j < length ads)%nat ->
  (nth_error ads i = nth_error ads j <-> (i mod 10 = j mod 10)%nat).
Proof.
  intros Hgen Hi Hj.
  destruct (generateAdsForKit_inv kit count ads Hgen)
    as (brand & colour & _ & _ & _ & Hnth).
  destruct (Hnth i Hi) as (ti & ci & Hti & Hci & Hai).
  destruct (Hnth j Hj) as (tj & cj & Htj & Hcj & Haj).
  rewrite to_nat_mod_10 in Hti, Htj. rewrite Hai, Haj. split.
  - intros [= _ _ Hcta].
    pose proof (template_cta brand _ ti ci Hti Hci) as Hki.
    pose proof (template_cta brand _ tj cj Htj Hcj) as Hkj.
    rewrite <- Hcta in Hkj.
    apply (proj1 (NoDup_nth_error _) template_ctas_distinct).
    + cbn [length]. apply Nat.mod_upper_bound. discriminate.
    + congruence.
  - intros Hmod. rewrite Hmod in Hti. rewrite Hti in Htj.
    inversion Htj; subst tj. rewrite Hci in Hcj. now inversion Hcj.
Qed.

(** X13: asking for more ads extends the result: the ads for a count are the
    first ads of the result for any larger count. *)
Theorem generateAdsForKit_prefix (kit : value) (n m : Z) (ads ads' : list ad) :
  generateAdsForKit kit n = Ok ads ->
  generateAdsForKit kit m = Ok ads' ->
  n <= m ->
  firstn (length ads) ads' = ads.
Proof.
  intros Hn Hm Hle.
  destruct (generateAdsForKit_inv kit n ads Hn)
    as (brand & colour & Hb & Hp & Hlen & Hnth).
  destruct (generateAdsForKit_inv kit m ads' Hm)
    as (brand' & colour' & Hb' & Hp' & Hlen' & Hnth').
  rewrite Hb in Hb'. inversion Hb'; subst brand'.
  rewrite Hp in Hp'. inversion Hp'; subst colour'.
  apply nth_error_ext. intros k. rewrite nth_error_firstn.
  destruct (Nat.ltb_spec k (length ads)) as [Hk | Hk].
  - destruct (Hnth k Hk) as (t & c & Ht & Hc & Ha).
    destruct (Hnth' k ltac:(lia)) as (t' & c' & Ht' & Hc' & Ha').
    rewrite Ht in Ht'. inversion Ht'; subst t'.
    rewrite Hc in Hc'. inversion Hc'; subst c'.
    now rewrite Ha, Ha'.
  - symmetry. now apply nth_error_None.
Qed.

End KitProperties.

(** * Further properties of the URLs and of the count *)

Section Urls.

(** ** [encodeURIComponent] *)

Lemma byte_range (c : ascii) : 0 <= byte c < 256.
Proof.
  unfold byte. pose proof (nat_ascii_bounded c). lia.
Qed.

Lemma byte_inj (c c' : ascii) : byte c = byte c' -> c = c'.
Proof.
  unfold byte. intros Hb. apply Nat2Z.inj in Hb.
  rewrite <- (ascii_nat_embedding c), <- (ascii_nat_embedding c'). now f_equal.
Qed.

Lemma byte_hex_digit (n : Z) :
  0 <= n < 16 -> byte (hex_digit n) = if n <? 10 then 48 + n else 55 + n.
Proof.
  intros Hn. unfold byte, hex_digit.
  rewrite nat_ascii_embedding by (destruct (n <? 10); lia).
  destruct (n <? 10); lia.
Qed.

Lemma hex_digit_inj (n m : Z) :
  0 <= n < 16 -> 0 <= m < 16 -> hex_digit n = hex_digit m -> n = m.
Proof.
  intros Hn Hm Heq. apply (f_equal byte) in Heq.
  rewrite !byte_hex_digit in Heq by assumption.
  destruct (Z.ltb_spec n 10), (Z.ltb_spec m 10); lia.
Qed.

Lemma hex_digit_unreserved (n : Z) :
  0 <= n < 16 -> uri_unreserved (hex_digit n) = true.
Proof.
  intros Hn. rewrite <- (Z2Nat.id n) by lia.
  assert (Hk : (Z.to_nat n < 16)%nat) by lia.
  revert Hk. generalize (Z.to_nat n). intros k Hk.
  do 16 (destruct k as [|k]; [reflexivity|]). lia.
Qed.

(** The two hexadecimal digits of a byte. *)
Lemma byte_nibbles (c : ascii) :
  0 <= byte c / 16 < 16 /\ 0 <= byte c mod 16 < 16.
Proof.
  pose proof (byte_range c). split.
  - split; [apply Z.div_pos; lia | apply Z.div_lt_upper_bound; lia].
  - apply Z.mod_pos_bound. lia.
Qed.

(** X14: the output of [encodeURIComponent] holds only unreserved characters
    (letters, digits and [- _ . ! ~ * ' ( )]) and [%]: whatever the domain,
    the value it contributes to the proxy URL holds no [&], [=], [#], [?],
    [/] or space. *)
Theorem encodeURIComponent_alphabet (s : string) :
  string_forallb (fun c => uri_unreserved c || (byte c =? 37))
    (encodeURIComponent s) = true.
Proof.
  induction s as [|c s IH]; cbn [encodeURIComponent]; [reflexivity|].
  destruct (uri_unreserved c) eqn:Hc; cbn [string_forallb].
  - now rewrite Hc, IH.
  - destruct (byte_nibbles c) as [Hhi Hlo].
    rewrite (hex_digit_unreserved _ Hhi), (hex_digit_unreserved _ Hlo), IH.
    reflexivity.
Qed.

Lemma encodeURIComponent_inj (s s' : string) :
  encodeURIComponent s = encodeURIComponent s' -> s = s'.
Proof.
  revert s'. induction s as [|c s IH]; intros [|c' s'];
    cbn [encodeURIComponent].
  - reflexivity.
  - destruct (uri_unreserved c'); discriminate.
  - destruct (uri_unreserved c); discriminate.
  - destruct (uri_unreserved c) eqn:Hc, (uri_unreserved c') eqn:Hc'.
    + intros [= -> Hrest]. f_equal. now apply IH.
    + intros [= -> _]. discriminate.
    + intros [= <- _]. discriminate.
    + intros [= Hhi Hlo Hrest].
      destruct (byte_nibbles c) as [Hc1 Hc2].
      destruct (byte_nibbles c') as [Hc1' Hc2'].
      apply hex_digit_inj in Hhi; [|assumption..].
      apply hex_digit_inj in Hlo; [|assumption..].
      f_equal; [|now apply IH].
      apply byte_inj.
      rewrite (Z.div_mod (byte c) 16), (Z.div_mod (byte c') 16) by lia.
      now rewrite Hhi, Hlo.
Qed.

Lemma append_cancel_l (x a b : string) :
  (x ++ a)%string = (x ++ b)%string -> a = b.
Proof.
  induction x as [|c x IH]; cbn [String.append]; [auto|].
  intros [= Heq]. auto.
Qed.

(** X15: the generator asks the proxy a different URL for each different
    domain string: the encoding loses nothing, and a domain that holds an
    escape sequence such as [%2F] is itself encoded again. *)
Theorem fetchBrandKit_url_distinct (env : process_env) (d d' : string) :
  d <> d' ->
  fetchBrandKit_url env (Some (QStr d)) <> fetchBrandKit_url env (Some (QStr d')).
Proof.
  intros Hne Heq. apply Hne. unfold fetchBrandKit_url in Heq.
  cbn [query_toString qToString bind] in Heq. injection Heq as Heq.
  apply append_cancel_l in Heq. injection Heq as Heq.
  now apply encodeURIComponent_inj.
Qed.

End Urls.

Section Counts.

(** ** [parseInt] and the count *)

(** Nothing is trimmed in front of a visible ASCII character. *)
Lemma trim_start_visible (c : ascii) (rest : string) :
  32 < byte c < 128 ->
  trim_start (String c rest) = String c rest.
Proof.
  intros Hc. cbn [trim_start existsb].
  repeat match goal with
         | |- context [byte c =? ?k] =>
             rewrite (proj2 (Z.eqb_neq (byte c) k)) by lia
         end.
  cbn [orb andb].
  destruct rest as [|c1 [|c2 rest]]; reflexivity.
Qed.

(** The digits of a decimal numeral, read after an accumulator. *)
Lemma digits_uint (d : Decimal.uint) (acc : Z) (t : string) :
  starts_with_digit t = false ->
  digits (Some acc) (NilEmpty.string_of_uint d ++ t)%string =
  Some (Z.of_N (DecimalPos.Unsigned.of_lu (Decimal.rev d))
        + acc * 10 ^ Z.of_N (DecimalPos.Unsigned.usize d)).
Proof.
  intros Ht. revert acc.
  induction d as [|d IH|d IH|d IH|d IH|d IH|d IH|d IH|d IH|d IH|d IH];
    intros acc.
  1: { cbn [NilEmpty.string_of_uint String.append Decimal.rev Decimal.revapp
              DecimalPos.Unsigned.of_lu DecimalPos.Unsigned.usize Z.of_N].
       rewrite Z.pow_0_r, Z.mul_1_r, Z.add_0_l.
       destruct t as [|c t]; cbn [digits]; [reflexivity|].
       cbn [starts_with_digit] in Ht. now rewrite Ht. }
  all: cbn [NilEmpty.string_of_uint String.append digits];
    match goal with
    | |- context [is_digit ?c] => change (is_digit c) with true
    end;
    cbv iota; rewrite IH; f_equal;
    unfold Decimal.rev; cbn [Decimal.revapp];
    rewrite !DecimalPos.Unsigned.of_lu_revapp;
    cbn [DecimalPos.Unsigned.usize DecimalPos.Unsigned.of_lu];
    rewrite !N2Z.inj_add, !N2Z.inj_mul, !N2Z.inj_pow, N2Z.inj_succ,
      Z.pow_succ_r by lia;
    match goal with
    | |- context [byte ?c - 48] =>
        let v := eval vm_compute in (byte c - 48) in
        change (byte c - 48) with v
    end;
    rewrite ?N.mul_0_r, ?N.add_0_r; cbn [Z.of_N]; ring.
Qed.

(** A numeral that starts with a digit is read the same from no accumulator
    and from 0. *)
Lemma digits_none (s : string) :
  starts_with_digit s = true -> digits None s = digits (Some 0) s.
Proof.
  destruct s as [|c s]; [discriminate|]. cbn [starts_with_digit digits].
  now intros ->.
Qed.

Lemma string_of_uint_digit (d : Decimal.uint) (t : string) :
  d <> Decimal.Nil ->
  exists c rest,
    (NilEmpty.string_of_uint d ++ t)%string = String c rest /\
    is_digit c = true.
Proof.
  destruct d; [congruence|..]; intros _; cbn; eexists _, _;
    (split; [reflexivity|reflexivity]).
Qed.

(** Reading back the numeral of a positive number. *)
Lemma parse_pos (p : positive) (t : string) :
  starts_with_digit t = false ->
  digits None (NilEmpty.string_of_uint (Pos.to_uint p) ++ t)%string =
  Some (Z.pos p).
Proof.
  intros Ht.
  destruct (string_of_uint_digit (Pos.to_uint p) t
              (DecimalPos.Unsigned.to_uint_nonnil p)) as (c & rest & Hs & Hc).
  rewrite digits_none by (rewrite Hs; exact Hc).
  rewrite digits_uint by assumption.
  rewrite <- DecimalPos.Unsigned.of_uint_alt, DecimalPos.Unsigned.of_to.
  rewrite Z.mul_0_l, Z.add_0_r. reflexivity.
Qed.

(** In front of a digit there is neither white space nor a sign. *)
Lemma parseInt_digit (c : ascii) (rest : string) :
  is_digit c = true ->
  parseInt (String c rest) =
    match digits None (String c rest) with
    | Some v => to_double (1 * v)
    | None => NaN
    end.
Proof.
  intros Hd. unfold parseInt.
  rewrite trim_start_visible by (unfold is_digit in Hd; lia).
  destruct c as [[] [] [] [] [] [] [] []];
    vm_compute in Hd; try discriminate Hd; reflexivity.
Qed.

(** [parseInt] reads the decimal notation of an integer as the double
    nearest to it, and stops at the first character that is not a digit. *)
Lemma parseInt_string_of_Z (n : Z) (t : string) :
  starts_with_digit t = false ->
  parseInt (string_of_Z n ++ t) = to_double n.
Proof.
  intros Ht. unfold string_of_Z.
  destruct n as [|p|p]; cbn [Z.to_int NilZero.string_of_int].
  - change (NilZero.string_of_uint Decimal.zero ++ t)%string with (String "0" t).
    rewrite parseInt_digit by reflexivity.
    cbn [digits]. change (is_digit "0") with true. cbv iota.
    destruct t as [|c t]; [reflexivity|].
    cbn [starts_with_digit] in Ht. cbn [digits]. now rewrite Ht.
  - pose proof (DecimalPos.Unsigned.to_uint_nonnil p) as Hnil.
    assert (Hs : NilZero.string_of_uint (Pos.to_uint p)
                 = NilEmpty.string_of_uint (Pos.to_uint p))
      by (unfold NilZero.string_of_uint; destruct (Pos.to_uint p); congruence).
    rewrite Hs.
    destruct (string_of_uint_digit (Pos.to_uint p) t Hnil)
      as (c & rest & Hc & Hd).
    pose proof (parse_pos p t Ht) as Hparse. rewrite Hc in *.
    rewrite parseInt_digit by assumption. rewrite Hparse.
    now rewrite Z.mul_1_l.
  - pose proof (parse_pos p t Ht) as Hparse.
    assert (Hs : NilZero.string_of_uint (Pos.to_uint p)
                 = NilEmpty.string_of_uint (Pos.to_uint p))
      by (pose proof (DecimalPos.Unsigned.to_uint_nonnil p);
          unfold NilZero.string_of_uint; destruct (Pos.to_uint p); congruence).
    rewrite Hs. cbn [String.append]. unfold parseInt.
    rewrite trim_start_visible by (vm_compute; split; reflexivity).
    rewrite Hparse. reflexivity.
Qed.

(** Up to 2^53 in absolute value an integer is its own nearest double. *)
Lemma to_double_exact (n : Z) : Z.abs n <= 2 ^ 53 -> to_double n = Finite n.
Proof.
  intros Hn. unfold to_double.
  destruct (Z.ltb_spec (Z.abs n) (2 ^ 53)) as [_ | Hge]; [reflexivity|].
  assert (Hcases : n = 2 ^ 53 \/ n = - 2 ^ 53) by lia.
  destruct Hcases as [-> | ->]; vm_compute; reflexivity.
Qed.

(** X16: a count parameter that is the decimal notation of an integer [n] of
    at most 2^53 in absolute value, possibly followed by text that does not
    start with a digit (as in [7.9] or [12px]), is read as [n]; only 0 is
    replaced, by 3. *)
Theorem parse_count_decimal (n : Z) (t : string) :
  starts_with_digit t = false ->
  Z.abs n <= 2 ^ 53 ->
  parse_count (Some (QStr (string_of_Z n ++ t))) =
    Ok (Finite (if n =? 0 then 3 else n)).
Proof.
  intros Ht Hn. unfold parse_count. cbn [query_toString qToString bind].
  rewrite parseInt_string_of_Z by assumption.
  rewrite to_double_exact by assumption.
  now destruct (n =? 0).
Qed.

(** X17: a count parameter that is absent, empty, or starts with a letter is
    not a number, and three ads are asked for. *)
Theorem parse_count_default (count : option qvalue) :
  count = None \/ count = Some (QStr "") \/
  (exists c rest, count = Some (QStr (String c rest)) /\ is_alpha c = true) ->
  parse_count count = Ok (Finite 3).
Proof.
  intros [-> | [-> | (c & rest & -> & Hc)]]; [reflexivity | reflexivity |].
  unfold parse_count, parseInt. cbn [query_toString qToString bind].
  assert (Hb : 32 < byte c < 128 /\ is_digit c = false /\
               byte c <> 45 /\ byte c <> 43).
  { unfold is_alpha in Hc. unfold is_digit. lia. }
  destruct Hb as (Hvis & Hdig & Hminus & Hplus).
  rewrite trim_start_visible by assumption.
  assert (Hd : digits None (String c rest) = None)
    by (cbn [digits]; now rewrite Hdig).
  destruct c as [[] [] [] [] [] [] [] []]; try (rewrite Hd; reflexivity);
    exfalso; first [now apply Hminus | now apply Hplus].
Qed.

End Counts.

(** * The further properties on the sample inputs *)

(** X2 at a network that is down. *)
Lemma generate_ads_fetch_failure_witness :
  run net_down (generate_ads env0 req_acme_12) =
    ([Fetched (mkRequest
         "https://render-project-cx98.onrender.com/brandkit?domain=acme.com"
         []);
      Logged (mkExn FetchError "connect ECONNREFUSED 127.0.0.1:3000")],
     Sent (mkResponse 500 (ErrorBody "connect ECONNREFUSED 127.0.0.1:3000"))).
Proof.
  apply (generate_ads_fetch_failure env0 req_acme_12 net_down).
  - left. reflexivity.
  - left. reflexivity.
Defined.

(** X3 at a negative count. *)
Lemma generate_ads_null_kit_witness :
  exists e,
    kind e = TypeError /\
    run (net_always res_null) (generate_ads env0 req_acme_neg) =
      ([Fetched (mkRequest
           "https://render-project-cx98.onrender.com/brandkit?domain=acme.com"
           []);
        Logged e],
       Sent (mkResponse 500 (ErrorBody (message e)))).
Proof.
  apply (generate_ads_null_kit env0 req_acme_neg (net_always res_null) _
           res_null).
  - left. reflexivity.
  - reflexivity.
  - reflexivity.
  - reflexivity.
Defined.

(** X4 at [count=-2]. *)
Lemma generate_ads_ads_count_witness :
  Some (QStr "acme.com") = lookup "domain" (query req_acme_neg) /\
  qtruthy (Some (QStr "acme.com")) = true /\
  (exists c,
     parse_count (lookup "count" (query req_acme_neg)) = Ok c /\
     iterations c = Some (length (@nil (ad int53)))) /\
  (@nil (ad int53) = [] <->
   exists text,
     query_toString (lookup "count" (query req_acme_neg)) = Ok text /\
     ((exists n, parseInt text = Finite n /\ n < 0) \/
      parseInt text = Infinity true)).
Proof.
  apply (generate_ads_ads_count env0 req_acme_neg (net_always res_acme)).
  reflexivity.
Defined.

(** X5 at the Acme kit and [count=12]. *)
Lemma generate_ads_object_kit_witness :
  exists ads,
    run (net_always res_acme) (generate_ads env0 req_acme_12) =
      ([Fetched (mkRequest
           "https://render-project-cx98.onrender.com/brandkit?domain=acme.com"
           [])],
       Sent (mkResponse 200 (AdsBody (Some (QStr "acme.com")) ads))) /\
    length ads = 12%nat.
Proof.
  apply (generate_ads_object_kit env0 req_acme_12 (net_always res_acme)
           (Finite 12) 12 _ res_acme
           [("name", VStr "Acme");
            ("colors", VArr [VObj [("hex", VNull)];
                             VObj [("hex", VStr "#abc123")]])]);
    try reflexivity.
  - intros v [= <-] _. now exists "Acme"%string.
  - intros v Hv. discriminate Hv.
  - intros entries [= <-]. repeat constructor; eexists; reflexivity.
Defined.

(** X6 at colors [[{hex: null}, null, {hex: "#abc123"}]]. *)
Lemma generateAdsForKit_null_colour_witness :
  exists e, kind e = TypeError /\ generateAdsForKit kit_null_colour 3 = Throw e.
Proof.
  apply (generateAdsForKit_null_colour kit_null_colour
           [VObj [("hex", VNull)]] [VObj [("hex", VStr "#abc123")]] 3).
  - reflexivity.
  - repeat constructor. exists VNull. split; reflexivity.
Defined.

(** X7 at colors [[{hex: null}, {hex: "#abc123"}]] with and without a
    trailing [null]. *)
Lemma primaryColour_ignores_tail_witness :
  primaryColour kit_acme = primaryColour kit_acme_tail.
Proof.
  apply (primaryColour_ignores_tail kit_acme kit_acme_tail
           [VObj [("hex", VNull)]] [] [VNull]
           (VObj [("hex", VStr "#abc123")]) (VStr "#abc123"));
    reflexivity.
Defined.

(** X8 at colors [[{hex: null}, {hex: ""}]]. *)
Lemma primaryColour_no_truthy_hex_witness :
  primaryColour kit_no_hex = Ok (VStr "#0052cc") /\
  Forall (fun a => color a = VStr "#0052cc") (returned_ads kit_no_hex 2).
Proof.
  apply (primaryColour_no_truthy_hex kit_no_hex
           [VObj [("hex", VNull)]; VObj [("hex", VStr "")]] 2).
  - reflexivity.
  - repeat constructor; eexists; split; reflexivity.
  - reflexivity.
Defined.

(** X9 at the Acme kit. *)
Lemma generateAdsForKit_colour_origin_witness :
  exists colour,
    Forall (fun a => color a = colour) (returned_ads kit_acme 2) /\
    (colour = VStr "#0052cc" \/
     exists entries c,
       get kit_acme "colors" = Ok (VArr entries) /\ In c entries /\
       get c "hex" = Ok colour /\ truthy colour = true).
Proof.
  apply (generateAdsForKit_colour_origin kit_acme 2). reflexivity.
Defined.

(** X10 at [{domain: "acme.com"}]. *)
Lemma brandName_truthy_witness :
  truthy (VStr "acme.com" : value int53) = true /\
  (get kit_domain "name" = Ok (VStr "acme.com") \/
   get kit_domain "domain" = Ok (VStr "acme.com") \/
   (VStr "acme.com" : value int53) = VStr "Your brand").
Proof.
  apply (brandName_truthy kit_domain (VStr "acme.com")). reflexivity.
Defined.

(** X11 at the Acme kit. *)
Lemma generateAdsForKit_headline_witness :
  Forall (fun a => contains "Acme" (headline a)) (returned_ads kit_acme 12).
Proof.
  apply (generateAdsForKit_headline kit_acme (VStr "Acme") "Acme" 12);
    reflexivity.
Defined.

(** X12 at the ads 1 and 11 of twelve. *)
Lemma generateAdsForKit_period_witness :
  nth_error (returned_ads kit_acme 12) 1 =
  nth_error (returned_ads kit_acme 12) 11 <-> (1 mod 10 = 11 mod 10)%nat.
Proof.
  apply (generateAdsForKit_period kit_acme 12 (returned_ads kit_acme 12) 1 11).
  - reflexivity.
  - vm_compute. lia.
  - vm_compute. lia.
Defined.

(** X13 at the counts 2 and 12. *)
Lemma generateAdsForKit_prefix_witness :
  firstn (length (returned_ads kit_acme 2)) (returned_ads kit_acme 12) =
  returned_ads kit_acme 2.
Proof.
  apply (generateAdsForKit_prefix kit_acme 2 12); [reflexivity | reflexivity | lia].
Defined.

(** X15 at the domains [a/b] and [a%2Fb]. *)
Lemma fetchBrandKit_url_distinct_witness :
  fetchBrandKit_url env0 (Some (QStr "a/b")) <>
  fetchBrandKit_url env0 (Some (QStr "a%2Fb")).
Proof.
  apply (fetchBrandKit_url_distinct env0 "a/b" "a%2Fb"). discriminate.
Defined.

(** X16 at [count=7.9]. *)
Lemma parse_count_decimal_witness :
  parse_count (Some (QStr (string_of_Z 7 ++ ".9"))) = Ok (Finite 7).
Proof.
  apply (parse_count_decimal 7 ".9"); [reflexivity | vm_compute; discriminate].
Defined.

(** Beyond 2^53 the count is read as the nearest double. *)
Example parseInt_rounds :
  parseInt "9007199254740993" = Finite 9007199254740992.
Proof. vm_compute. reflexivity. Qed.

(** X17 at [count=abc]. *)
Lemma parse_count_default_witness :
  parse_count (Some (QStr "abc")) = Ok (Finite 3).
Proof.
  apply (parse_count_default (Some (QStr "abc"))).
  right. right. exists "a"%char, "bc"%string. split; reflexivity.
Defined.
